(** * Retriever components of haystack-core-integrations

    A shallow embedding of
    - [integrations/opensearch/.../retrievers/opensearch/bm25_retriever.py]
      (class [OpenSearchBM25Retriever]) and
    - [integrations/qdrant/.../retrievers/qdrant/retriever.py]
      (classes [QdrantEmbeddingRetriever], [QdrantSparseEmbeddingRetriever]
      and [QdrantHybridRetriever]),
    followed by the properties of parameter resolution, filter policies,
    error handling and serialization that their specification states.

    Python is dynamically typed, so every argument and attribute is a value
    of the universal type [PyVal]; methods that call into the document store
    run in a small state-and-exception monad whose state carries the
    receiver, the external service, the calls made to it and the log. *)

From Stdlib Require Import ZArith String List Floats.
From stdpp Require Import base option gmap strings.

Set Warnings "-register-all".
Open Scope Z_scope.

(* ===================================================================== *)
(** ** Python values *)
(* ===================================================================== *)

(** Modelled from the spec: the enum [FilterPolicy] of the haystack framework
    is not part of these sources.  It has the two members REPLACE and
    MERGE. *)
Inductive FilterPolicy : Type := REPLACE | MERGE.

(** The values the retrievers handle.  [VObj mro state] is an instance of a
    class: [mro] lists the names of its class and of its base classes, which
    is all [isinstance] looks at; [state] is whatever the object holds. *)
Inductive PyVal : Type :=
| VNone
| VBool (b : bool)
| VInt (z : Z)
| VFloat (f : float)
| VStr (s : string)
| VList (l : list PyVal)
| VDict (d : gmap string PyVal)
| VPolicy (p : FilterPolicy)
| VObj (mro : list string) (state : PyVal).

(** Truth value testing, the protocol behind [if x], [not x] and [x or y]:
    [None], [False], numeric zero and empty containers are false, everything
    else (in particular an enum member or a plain object) is true. *)
Class Truthy (A : Type) := truthy : A -> bool.

#[global] Instance bool_truthy : Truthy bool := fun b => b.
#[global] Instance int_truthy : Truthy Z := fun z => negb (z =? 0)%Z.
#[global] Instance float_truthy : Truthy float :=
  fun f => negb (PrimFloat.eqb f 0%float).
#[global] Instance str_truthy : Truthy string :=
  fun s => match s with EmptyString => false | String _ _ => true end.
#[global] Instance list_truthy {A} : Truthy (list A) :=
  fun l => negb (bool_decide (l = [])).
#[global] Instance dict_truthy {A} : Truthy (gmap string A) :=
  fun d => negb (bool_decide (d = ∅)).
#[global] Instance PyVal_truthy : Truthy PyVal := fun v =>
  match v with
  | VNone => false
  | VBool b => truthy b
  | VInt z => truthy z
  | VFloat f => truthy f
  | VStr s => truthy s
  | VList l => truthy l
  | VDict d => truthy d
  | VPolicy _ => true
  | VObj _ _ => true
  end.

(** [x or y]: [x] when [x] is true, otherwise [y]. *)
Definition py_or (x y : PyVal) : PyVal := if truthy x then x else y.

(** [x is None]. *)
Definition is_None (x : PyVal) : bool :=
  match x with VNone => true | _ => false end.

(** [isinstance(obj, cls)]: the class named [cls] is among the classes of
    [obj]; a value that is no class instance is an instance of no store. *)
Definition isinstance (obj : PyVal) (cls : string) : bool :=
  match obj with
  | VObj mro _ => existsb (String.eqb cls) mro
  | _ => false
  end.

(** Modelled from the spec: the class [Document] of the haystack framework
    is not part of these sources.  A document has an id, a content, a score
    and an optional embedding; the retrievers only pass documents on. *)
Record Document : Type := mkDocument {
  doc_id : string;
  content : string;
  score : option float;
  embedding : option (list float);
}.

(* ===================================================================== *)
(** ** Exceptions and the two monads *)
(* ===================================================================== *)

(** Instances of Python's [Exception]: the ones the retrievers raise
    themselves, and [BackendError cls msg] for whatever a document store
    raises.  All of them are caught by [except Exception]. *)
Inductive Exception : Type :=
| ValueError (msg : string)
| KeyError (key : string)
| TypeError (msg : string)
| BackendError (cls msg : string).

(** [str(e)]. *)
Definition str_of_exception (e : Exception) : string :=
  match e with
  | ValueError msg => msg
  | KeyError key => "'" +:+ key +:+ "'"
  | TypeError msg => msg
  | BackendError _ msg => msg
  end.

(** The outcome of evaluating an expression: a value or a raised exception. *)
Inductive Outcome (A : Type) : Type :=
| Returned (a : A)
| Raised (e : Exception).
Arguments Returned {A} a.
Arguments Raised {A} e.

#[global] Instance Outcome_ret : MRet Outcome := fun A a => Returned a.
#[global] Instance Outcome_bind : MBind Outcome := fun A B f m =>
  match m with
  | Returned a => f a
  | Raised e => Raised e
  end.

(** One call of a method of the document store, as a mock store would record
    it: the receiver, the method and the keyword arguments. *)
Record StoreCall : Type := mkStoreCall {
  call_target : PyVal;
  call_method : string;
  call_kwargs : gmap string PyVal;
}.

(** One record handed to the module's [logger]. *)
Record LogRecord : Type := mkLogRecord {
  log_level : string;
  log_format : string;
  log_args : list string;
  log_exc_info : bool;
}.

(** The document store is an external collaborator: its classes are not part
    of these sources.  This is the contract the retrievers use.
    - [Ext] is the state of the external service (index contents, network);
    - [store_method name store kwargs] is the private query method [name] of
      [store] called with keyword arguments [kwargs]: it returns documents
      or raises, and may change the service;
    - [store_to_dict store] is [store.to_dict()];
    - [store_from_dict cls data] is the class method [cls.from_dict(data)];
    - [merge_backend_filters init runtime] combines two filters of which at
      least one is a backend-specific filter object, in whichever way the
      backend's filter representation prescribes. *)
Class DocumentStoreContract : Type := {
  Ext : Type;
  store_method :
    string -> PyVal -> gmap string PyVal -> Ext -> Outcome (list Document) * Ext;
  store_to_dict : PyVal -> PyVal;
  store_from_dict : string -> PyVal -> Outcome PyVal;
  merge_backend_filters : PyVal -> PyVal -> PyVal;
}.

Section Effects.
Context `{DocumentStoreContract}.

(** What a method of a retriever can read or change: the retriever object
    [self], the external service, the trace of calls made to the store and
    the log. *)
Record State (Self : Type) : Type := mkState {
  self : Self;
  ext : Ext;
  calls : list StoreCall;
  log : list LogRecord;
}.
#[global] Arguments mkState {Self} _ _ _ _.
#[global] Arguments self {Self} _.
#[global] Arguments ext {Self} _.
#[global] Arguments calls {Self} _.
#[global] Arguments log {Self} _.

(** A method body: from a state to an outcome and a new state. *)
Definition M (Self A : Type) : Type := State Self -> Outcome A * State Self.

#[global] Instance M_ret {Self} : MRet (M Self) :=
  fun A a st => (Returned a, st).
#[global] Instance M_bind {Self} : MBind (M Self) := fun A B f m st =>
  match m st with
  | (Returned a, st') => f a st'
  | (Raised e, st') => (Raised e, st')
  end.

(** [self.attr]. *)
Definition getattr {Self A} (attr : Self -> A) : M Self A :=
  fun st => (Returned (attr (self st)), st).

(** [raise e]. *)
Definition raise {Self A} (e : Exception) : M Self A :=
  fun st => (Raised e, st).

(** [try: body / except Exception as e: handler e]. *)
Definition try_except {Self A}
    (body : M Self A) (handler : Exception -> M Self A) : M Self A :=
  fun st =>
    match body st with
    | (Returned a, st') => (Returned a, st')
    | (Raised e, st') => handler e st'
    end.

(** [store.name(k1=v1, ...)]: the call is recorded and answered by the
    external service. *)
Definition call_store {Self}
    (store : PyVal) (name : string) (kwargs : gmap string PyVal)
  : M Self (list Document) :=
  fun st =>
    let '(res, ext') := store_method name store kwargs (ext st) in
    (res, mkState (self st) ext'
                  (calls st ++ [mkStoreCall store name kwargs]) (log st)).

(** [logger.warning(fmt, args..., exc_info=exc_info)]. *)
Definition logger_warning {Self}
    (fmt : string) (args : list string) (exc_info : bool) : M Self unit :=
  fun st =>
    (Returned tt,
     mkState (self st) (ext st) (calls st)
             (log st ++ [mkLogRecord "WARNING" fmt args exc_info])).
End Effects.

(* ===================================================================== *)
(** ** What the retrievers import from the haystack framework *)
(* ===================================================================== *)

(** Modelled from the spec: the attribute [value] of a [FilterPolicy] member
    is not part of these sources.  It is one of the string tokens
    ["replace"] and ["merge"]. *)
Definition FilterPolicy_value (p : FilterPolicy) : string :=
  match p with
  | REPLACE => "replace"
  | MERGE => "merge"
  end.

(** Modelled from the spec: [FilterPolicy.from_str] is not part of these
    sources.  It maps one of the two string tokens back to the member and
    rejects everything else. *)
Definition FilterPolicy_from_str (filter_policy : PyVal) : Outcome FilterPolicy :=
  match filter_policy with
  | VStr s =>
      if String.eqb s "replace" then Returned REPLACE
      else if String.eqb s "merge" then Returned MERGE
      else Raised (ValueError "not a valid FilterPolicy")
  | _ => Raised (ValueError "not a valid FilterPolicy")
  end.

(** Modelled from the spec: [apply_filter_policy] of the framework is not
    part of these sources.  REPLACE: call-time filters, when given, are used
    exactly, otherwise the configured ones.  MERGE: configured and call-time
    filters are combined, field by field for two mappings with the call-time
    value winning on a conflict, and by the backend's filter representation
    for filter objects; an absent side contributes nothing. *)
Definition apply_filter_policy `{DocumentStoreContract}
    (filter_policy : FilterPolicy) (init_filters runtime_filters : PyVal)
  : PyVal :=
  match filter_policy with
  | REPLACE => if is_None runtime_filters then init_filters else runtime_filters
  | MERGE =>
      match init_filters, runtime_filters with
      | _, VNone => init_filters
      | VNone, _ => runtime_filters
      | VDict init, VDict runtime => VDict (runtime ∪ init)
      | _, _ => merge_backend_filters init_filters runtime_filters
      end
  end.

(** [d[key]]. *)
Definition getitem (d : PyVal) (key : string) : Outcome PyVal :=
  match d with
  | VDict m =>
      match m !! key with
      | Some v => Returned v
      | None => Raised (KeyError key)
      end
  | _ => Raised (TypeError "object is not subscriptable")
  end.

(** [d[key] = v] on a value. *)
Definition setitem (d : PyVal) (key : string) (v : PyVal) : Outcome PyVal :=
  match d with
  | VDict m => Returned (VDict (<[key := v]> m))
  | _ => Raised (TypeError "object does not support item assignment")
  end.

(** Modelled from the spec: [default_to_dict] of the framework is not part
    of these sources.  The serialized form is a mapping whose key
    ["init_parameters"] holds the keyword arguments it is given. *)
Definition default_to_dict (init_parameters : gmap string PyVal)
  : gmap string PyVal :=
  {[ "init_parameters" := VDict init_parameters ]}.

(** Modelled from the spec: [default_from_dict] of the framework is not part
    of these sources.  It calls the class with the entries of
    ["init_parameters"] as keyword arguments; [cls] is that call. *)
Definition default_from_dict {T}
    (cls : gmap string PyVal -> Outcome T) (data : gmap string PyVal)
  : Outcome T :=
  init_parameters ← getitem (VDict data) "init_parameters";
  match init_parameters with
  | VDict kwargs => cls kwargs
  | _ => Raised (TypeError "argument after ** must be a mapping")
  end.

(** Binding keyword arguments to parameters: a keyword that names no
    parameter is a [TypeError], and so is a missing required parameter; an
    omitted optional parameter takes its default. *)
Definition unexpected_keyword
    (params : list string) (kwargs : gmap string PyVal) : bool :=
  negb (bool_decide (dom kwargs ⊆ list_to_set params)).

Definition required (kwargs : gmap string PyVal) (name : string) : Outcome PyVal :=
  match kwargs !! name with
  | Some v => Returned v
  | None => Raised (TypeError ("missing required argument: " +:+ name))
  end.

Definition optional
    (kwargs : gmap string PyVal) (name : string) (dflt : PyVal) : PyVal :=
  default dflt (kwargs !! name).

(** The value of the function [run]: the dictionary [{"documents": docs}]. *)
Record Output : Type := mkOutput { documents : list Document }.

(** [filter_policy if isinstance(filter_policy, FilterPolicy)
     else FilterPolicy.from_str(filter_policy)], the expression all four
    constructors use. *)
Definition policy_of_argument (filter_policy : PyVal) : Outcome FilterPolicy :=
  match filter_policy with
  | VPolicy p => Returned p
  | _ => FilterPolicy_from_str filter_policy
  end.

(* ===================================================================== *)
(** ** bm25_retriever.py: class OpenSearchBM25Retriever *)
(* ===================================================================== *)

Module OpenSearchBM25Retriever.

(** The attributes [__init__] sets. *)
Record t : Type := mk {
  _document_store : PyVal;
  _filters : PyVal;
  _fuzziness : PyVal;
  _top_k : PyVal;
  _scale_score : PyVal;
  _all_terms_must_match : PyVal;
  _filter_policy : FilterPolicy;
  _custom_query : PyVal;
  _raise_on_failure : PyVal;
}.

Definition __init__
    (document_store filters fuzziness top_k scale_score all_terms_must_match
     filter_policy custom_query raise_on_failure : PyVal) : Outcome t :=
  if negb (isinstance document_store "OpenSearchDocumentStore") then
    Raised (ValueError
              "document_store must be an instance of OpenSearchDocumentStore")
  else
    policy ← policy_of_argument filter_policy;
    mret {| _document_store := document_store;
            _filters := py_or filters (VDict ∅);
            _fuzziness := fuzziness;
            _top_k := top_k;
            _scale_score := scale_score;
            _all_terms_must_match := all_terms_must_match;
            _filter_policy := policy;
            _custom_query := custom_query;
            _raise_on_failure := raise_on_failure |}.

(** The parameters of [__init__], all keyword-only, in order. *)
Definition parameters : list string :=
  ["document_store"; "filters"; "fuzziness"; "top_k"; "scale_score";
   "all_terms_must_match"; "filter_policy"; "custom_query";
   "raise_on_failure"].

(** The call [OpenSearchBM25Retriever(k1=v1, ...)] with the defaults of the
    signature of [__init__]. *)
Definition construct (kwargs : gmap string PyVal) : Outcome t :=
  if unexpected_keyword parameters kwargs then
    Raised (TypeError "__init__() got an unexpected keyword argument")
  else
    document_store ← required kwargs "document_store";
    __init__ document_store
             (optional kwargs "filters" VNone)
             (optional kwargs "fuzziness" (VStr "AUTO"))
             (optional kwargs "top_k" (VInt 10))
             (optional kwargs "scale_score" (VBool false))
             (optional kwargs "all_terms_must_match" (VBool false))
             (optional kwargs "filter_policy" (VPolicy REPLACE))
             (optional kwargs "custom_query" VNone)
             (optional kwargs "raise_on_failure" (VBool true)).

Section Methods.
Context `{DocumentStoreContract}.

Definition to_dict (self : t) : Outcome (gmap string PyVal) :=
  mret (default_to_dict
          (list_to_map
             [("filters", _filters self);
              ("fuzziness", _fuzziness self);
              ("top_k", _top_k self);
              ("scale_score", _scale_score self);
              ("document_store", store_to_dict (_document_store self));
              ("filter_policy",
               VStr (FilterPolicy_value (_filter_policy self)));
              ("custom_query", _custom_query self);
              ("raise_on_failure", _raise_on_failure self)])).

Definition from_dict (data : gmap string PyVal) : Outcome t :=
  init_parameters ← getitem (VDict data) "init_parameters";
  serialized_store ← getitem init_parameters "document_store";
  document_store ← store_from_dict "OpenSearchDocumentStore" serialized_store;
  init_parameters ← setitem init_parameters "document_store" document_store;
  serialized_policy ← getitem init_parameters "filter_policy";
  policy ← FilterPolicy_from_str serialized_policy;
  init_parameters ← setitem init_parameters "filter_policy" (VPolicy policy);
  default_from_dict construct (<["init_parameters" := init_parameters]> data).

Definition run
    (query filters all_terms_must_match top_k fuzziness scale_score
     custom_query : PyVal) : M t Output :=
  policy ← getattr _filter_policy;
  init_filters ← getattr _filters;
  let filters := apply_filter_policy policy init_filters filters in
  filters ← (if is_None filters then getattr _filters else mret filters);
  all_terms_must_match ←
    (if is_None all_terms_must_match then getattr _all_terms_must_match
     else mret all_terms_must_match);
  top_k ← (if is_None top_k then getattr _top_k else mret top_k);
  fuzziness ← (if is_None fuzziness then getattr _fuzziness else mret fuzziness);
  scale_score ←
    (if is_None scale_score then getattr _scale_score else mret scale_score);
  custom_query ←
    (if is_None custom_query then getattr _custom_query else mret custom_query);
  document_store ← getattr _document_store;
  docs ←
    try_except
      (call_store document_store "_bm25_retrieval"
         (list_to_map
            [("query", query);
             ("filters", filters);
             ("fuzziness", fuzziness);
             ("top_k", top_k);
             ("scale_score", scale_score);
             ("all_terms_must_match", all_terms_must_match);
             ("custom_query", custom_query)]))
      (fun e =>
         raise_on_failure ← getattr _raise_on_failure;
         if truthy raise_on_failure then raise e
         else
           logger_warning
             "An error during BM25 retrieval occurred and will be ignored by returning empty results: %s"
             [str_of_exception e] true;;
           mret []);
  mret (mkOutput docs).

End Methods.
End OpenSearchBM25Retriever.

(* ===================================================================== *)
(** ** retriever.py: class QdrantEmbeddingRetriever *)
(* ===================================================================== *)

Module QdrantEmbeddingRetriever.

(** The attributes [__init__] sets. *)
Record t : Type := mk {
  _document_store : PyVal;
  _filters : PyVal;
  _top_k : PyVal;
  _scale_score : PyVal;
  _return_embedding : PyVal;
  _filter_policy : FilterPolicy;
  _score_threshold : PyVal;
}.

Definition __init__
    (document_store filters top_k scale_score return_embedding filter_policy
     score_threshold : PyVal) : Outcome t :=
  if negb (isinstance document_store "QdrantDocumentStore") then
    Raised (ValueError
              "document_store must be an instance of QdrantDocumentStore")
  else
    policy ← policy_of_argument filter_policy;
    mret {| _document_store := document_store;
            _filters := filters;
            _top_k := top_k;
            _scale_score := scale_score;
            _return_embedding := return_embedding;
            _filter_policy := policy;
            _score_threshold := score_threshold |}.

(** The parameters of [__init__], in order. *)
Definition parameters : list string :=
  ["document_store"; "filters"; "top_k"; "scale_score"; "return_embedding";
   "filter_policy"; "score_threshold"].

(** The call [QdrantEmbeddingRetriever(k1=v1, ...)] with the defaults of the
    signature of [__init__]. *)
Definition construct (kwargs : gmap string PyVal) : Outcome t :=
  if unexpected_keyword parameters kwargs then
    Raised (TypeError "__init__() got an unexpected keyword argument")
  else
    document_store ← required kwargs "document_store";
    __init__ document_store
             (optional kwargs "filters" VNone)
             (optional kwargs "top_k" (VInt 10))
             (optional kwargs "scale_score" (VBool false))
             (optional kwargs "return_embedding" (VBool false))
             (optional kwargs "filter_policy" (VPolicy REPLACE))
             (optional kwargs "score_threshold" VNone).

Section Methods.
Context `{DocumentStoreContract}.

Definition to_dict (self : t) : Outcome (gmap string PyVal) :=
  let d :=
    default_to_dict
      (list_to_map
         [("document_store", _document_store self);
          ("filters", _filters self);
          ("top_k", _top_k self);
          ("filter_policy", VStr (FilterPolicy_value (_filter_policy self)));
          ("scale_score", _scale_score self);
          ("return_embedding", _return_embedding self);
          ("score_threshold", _score_threshold self)]) in
  init_parameters ← getitem (VDict d) "init_parameters";
  init_parameters ←
    setitem init_parameters "document_store"
            (store_to_dict (_document_store self));
  mret (<["init_parameters" := init_parameters]> d).

Definition from_dict (data : gmap string PyVal) : Outcome t :=
  init_parameters ← getitem (VDict data) "init_parameters";
  serialized_store ← getitem init_parameters "document_store";
  document_store ← store_from_dict "QdrantDocumentStore" serialized_store;
  init_parameters ← setitem init_parameters "document_store" document_store;
  serialized_policy ← getitem init_parameters "filter_policy";
  policy ← FilterPolicy_from_str serialized_policy;
  init_parameters ← setitem init_parameters "filter_policy" (VPolicy policy);
  default_from_dict construct (<["init_parameters" := init_parameters]> data).

Definition run
    (query_embedding filters top_k scale_score return_embedding
     score_threshold : PyVal) : M t Output :=
  policy ← getattr _filter_policy;
  init_filters ← getattr _filters;
  let filters := apply_filter_policy policy init_filters filters in
  document_store ← getattr _document_store;
  top_k ← (if truthy top_k then mret top_k else getattr _top_k);
  scale_score ←
    (if truthy scale_score then mret scale_score else getattr _scale_score);
  return_embedding ←
    (if truthy return_embedding then mret return_embedding
     else getattr _return_embedding);
  score_threshold ←
    (if truthy score_threshold then mret score_threshold
     else getattr _score_threshold);
  docs ←
    call_store document_store "_query_by_embedding"
      (list_to_map
         [("query_embedding", query_embedding);
          ("filters", filters);
          ("top_k", top_k);
          ("scale_score", scale_score);
          ("return_embedding", return_embedding);
          ("score_threshold", score_threshold)]);
  mret (mkOutput docs).

End Methods.
End QdrantEmbeddingRetriever.

(* ===================================================================== *)
(** ** retriever.py: class QdrantSparseEmbeddingRetriever *)
(* ===================================================================== *)

Module QdrantSparseEmbeddingRetriever.

(** The attributes [__init__] sets. *)
Record t : Type := mk {
  _document_store : PyVal;
  _filters : PyVal;
  _top_k : PyVal;
  _scale_score : PyVal;
  _return_embedding : PyVal;
  _filter_policy : FilterPolicy;
  _score_threshold : PyVal;
}.

Definition __init__
    (document_store filters top_k scale_score return_embedding filter_policy
     score_threshold : PyVal) : Outcome t :=
  if negb (isinstance document_store "QdrantDocumentStore") then
    Raised (ValueError
              "document_store must be an instance of QdrantDocumentStore")
  else
    policy ← policy_of_argument filter_policy;
    mret {| _document_store := document_store;
            _filters := filters;
            _top_k := top_k;
            _scale_score := scale_score;
            _return_embedding := return_embedding;
            _filter_policy := policy;
            _score_threshold := score_threshold |}.

(** The parameters of [__init__], in order. *)
Definition parameters : list string :=
  ["document_store"; "filters"; "top_k"; "scale_score"; "return_embedding";
   "filter_policy"; "score_threshold"].

(** The call [QdrantSparseEmbeddingRetriever(k1=v1, ...)] with the defaults of the
    signature of [__init__]. *)
Definition construct (kwargs : gmap string PyVal) : Outcome t :=
  if unexpected_keyword parameters kwargs then
    Raised (TypeError "__init__() got an unexpected keyword argument")
  else
    document_store ← required kwargs "document_store";
    __init__ document_store
             (optional kwargs "filters" VNone)
             (optional kwargs "top_k" (VInt 10))
             (optional kwargs "scale_score" (VBool false))
             (optional kwargs "return_embedding" (VBool false))
             (optional kwargs "filter_policy" (VPolicy REPLACE))
             (optional kwargs "score_threshold" VNone).

Section Methods.
Context `{DocumentStoreContract}.

Definition to_dict (self : t) : Outcome (gmap string PyVal) :=
  let d :=
    default_to_dict
      (list_to_map
         [("document_store", _document_store self);
          ("filters", _filters self);
          ("top_k", _top_k self);
          ("scale_score", _scale_score self);
          ("filter_policy", VStr (FilterPolicy_value (_filter_policy self)));
          ("return_embedding", _return_embedding self);
          ("score_threshold", _score_threshold self)]) in
  init_parameters ← getitem (VDict d) "init_parameters";
  init_parameters ←
    setitem init_parameters "document_store"
            (store_to_dict (_document_store self));
  mret (<["init_parameters" := init_parameters]> d).

Definition from_dict (data : gmap string PyVal) : Outcome t :=
  init_parameters ← getitem (VDict data) "init_parameters";
  serialized_store ← getitem init_parameters "document_store";
  document_store ← store_from_dict "QdrantDocumentStore" serialized_store;
  init_parameters ← setitem init_parameters "document_store" document_store;
  serialized_policy ← getitem init_parameters "filter_policy";
  policy ← FilterPolicy_from_str serialized_policy;
  init_parameters ← setitem init_parameters "filter_policy" (VPolicy policy);
  default_from_dict construct (<["init_parameters" := init_parameters]> data).

Definition run
    (query_sparse_embedding filters top_k scale_score return_embedding
     score_threshold : PyVal) : M t Output :=
  policy ← getattr _filter_policy;
  init_filters ← getattr _filters;
  let filters := apply_filter_policy policy init_filters filters in
  document_store ← getattr _document_store;
  top_k ← (if truthy top_k then mret top_k else getattr _top_k);
  scale_score ←
    (if truthy scale_score then mret scale_score else getattr _scale_score);
  return_embedding ←
    (if truthy return_embedding then mret return_embedding
     else getattr _return_embedding);
  score_threshold ←
    (if truthy score_threshold then mret score_threshold
     else getattr _score_threshold);
  docs ←
    call_store document_store "_query_by_sparse"
      (list_to_map
         [("query_sparse_embedding", query_sparse_embedding);
          ("filters", filters);
          ("top_k", top_k);
          ("scale_score", scale_score);
          ("return_embedding", return_embedding);
          ("score_threshold", score_threshold)]);
  mret (mkOutput docs).

End Methods.
End QdrantSparseEmbeddingRetriever.

(* ===================================================================== *)
(** ** retriever.py: class QdrantHybridRetriever *)
(* ===================================================================== *)

Module QdrantHybridRetriever.

(** The attributes [__init__] sets; this class has no [scale_score]. *)
Record t : Type := mk {
  _document_store : PyVal;
  _filters : PyVal;
  _top_k : PyVal;
  _return_embedding : PyVal;
  _filter_policy : FilterPolicy;
  _score_threshold : PyVal;
}.

Definition __init__
    (document_store filters top_k return_embedding filter_policy
     score_threshold : PyVal) : Outcome t :=
  if negb (isinstance document_store "QdrantDocumentStore") then
    Raised (ValueError
              "document_store must be an instance of QdrantDocumentStore")
  else
    policy ← policy_of_argument filter_policy;
    mret {| _document_store := document_store;
            _filters := filters;
            _top_k := top_k;
            _return_embedding := return_embedding;
            _filter_policy := policy;
            _score_threshold := score_threshold |}.

(** The parameters of [__init__], in order. *)
Definition parameters : list string :=
  ["document_store"; "filters"; "top_k"; "return_embedding"; "filter_policy";
   "score_threshold"].

(** The call [QdrantHybridRetriever(k1=v1, ...)] with the defaults of the
    signature of [__init__]. *)
Definition construct (kwargs : gmap string PyVal) : Outcome t :=
  if unexpected_keyword parameters kwargs then
    Raised (TypeError "__init__() got an unexpected keyword argument")
  else
    document_store ← required kwargs "document_store";
    __init__ document_store
             (optional kwargs "filters" VNone)
             (optional kwargs "top_k" (VInt 10))
             (optional kwargs "return_embedding" (VBool false))
             (optional kwargs "filter_policy" (VPolicy REPLACE))
             (optional kwargs "score_threshold" VNone).

Section Methods.
Context `{DocumentStoreContract}.

Definition to_dict (self : t) : Outcome (gmap string PyVal) :=
  mret (default_to_dict
          (list_to_map
             [("document_store", store_to_dict (_document_store self));
              ("filters", _filters self);
              ("top_k", _top_k self);
              ("filter_policy",
               VStr (FilterPolicy_value (_filter_policy self)));
              ("return_embedding", _return_embedding self);
              ("score_threshold", _score_threshold self)])).

Definition from_dict (data : gmap string PyVal) : Outcome t :=
  init_parameters ← getitem (VDict data) "init_parameters";
  serialized_store ← getitem init_parameters "document_store";
  document_store ← store_from_dict "QdrantDocumentStore" serialized_store;
  init_parameters ← setitem init_parameters "document_store" document_store;
  serialized_policy ← getitem init_parameters "filter_policy";
  policy ← FilterPolicy_from_str serialized_policy;
  init_parameters ← setitem init_parameters "filter_policy" (VPolicy policy);
  default_from_dict construct (<["init_parameters" := init_parameters]> data).

Definition run
    (query_embedding query_sparse_embedding filters top_k return_embedding
     score_threshold : PyVal) : M t Output :=
  policy ← getattr _filter_policy;
  init_filters ← getattr _filters;
  let filters := apply_filter_policy policy init_filters filters in
  document_store ← getattr _document_store;
  top_k ← (if truthy top_k then mret top_k else getattr _top_k);
  return_embedding ←
    (if truthy return_embedding then mret return_embedding
     else getattr _return_embedding);
  score_threshold ←
    (if truthy score_threshold then mret score_threshold
     else getattr _score_threshold);
  docs ←
    call_store document_store "_query_hybrid"
      (list_to_map
         [("query_embedding", query_embedding);
          ("query_sparse_embedding", query_sparse_embedding);
          ("filters", filters);
          ("top_k", top_k);
          ("return_embedding", return_embedding);
          ("score_threshold", score_threshold)]);
  mret (mkOutput docs).

End Methods.
End QdrantHybridRetriever.

(* ===================================================================== *)
(** ** Observations on a run, and the stores the examples use *)
(* ===================================================================== *)

(** [x if x is not None else dflt], the value [run] of the BM25 retriever
    resolves a parameter to; the Qdrant retrievers resolve to [x or dflt],
    which is [py_or]. *)
Definition unless_None (x dflt : PyVal) : PyVal :=
  if is_None x then dflt else x.

(** Running [m] from [st] makes exactly the call [c] to the store. *)
Definition makes_call `{DocumentStoreContract} {Self A}
    (m : M Self A) (st : State Self) (c : StoreCall) : Prop :=
  calls (m st).2 = (calls st ++ [c])%list.

(** Running [m] from [st] makes exactly one call to the store, and its
    keyword argument [name] is [v]: the effective value of that parameter. *)
Definition forwards `{DocumentStoreContract} {Self A}
    (m : M Self A) (st : State Self) (name : string) (v : PyVal) : Prop :=
  ∃ c, makes_call m st c ∧ call_kwargs c !! name = Some v.

(** What the external service answers to the call [c] in the state [st]. *)
Definition answer `{DocumentStoreContract} {Self}
    (st : State Self) (c : StoreCall) : Outcome (list Document) :=
  (store_method (call_method c) (call_target c) (call_kwargs c) (ext st)).1.

(** Running [m] from [st] hands the value [v] to the store as the keyword
    argument [name]: [m] makes exactly one call, the call of [method] on
    [store], with [name := v] among its keyword arguments; the external
    service is afterwards in the state in which this very call left it; and
    when the service answers with documents, they are what [m] returns. *)
Definition passes_to_store `{DocumentStoreContract} {Self}
    (m : M Self Output) (st : State Self) (store : PyVal)
    (method name : string) (v : PyVal) : Prop :=
  ∃ c, makes_call m st c
       ∧ call_target c = store
       ∧ call_method c = method
       ∧ call_kwargs c !! name = Some v
       ∧ ext (m st).2
         = (store_method method store (call_kwargs c) (ext st)).2
       ∧ (∀ docs, answer st c = Returned docs ->
                  (m st).1 = Returned (mkOutput docs)).

(** The record [run] of the BM25 retriever logs when it swallows [e]. *)
Definition bm25_warning (e : Exception) : LogRecord :=
  mkLogRecord "WARNING"
    "An error during BM25 retrieval occurred and will be ignored by returning empty results: %s"
    [str_of_exception e] true.

(** A method body leaves the receiver as it found it. *)
Definition preserves_self `{DocumentStoreContract} {Self A}
    (m : M Self A) : Prop :=
  ∀ st, self (m st).2 = self st.

(** A store whose service holds a list of documents and answers every
    query with all of them; it serializes to the state of the store object. *)
Definition in_memory_store : DocumentStoreContract := {|
  Ext := list Document;
  store_method := fun _ _ _ docs => (Returned docs, docs);
  store_to_dict := fun store =>
    match store with VObj _ state => state | _ => VNone end;
  store_from_dict := fun cls data => Returned (VObj [cls] data);
  merge_backend_filters := fun init runtime => VList [init; runtime];
|}.

(** A store whose service cannot be reached: every query raises. *)
Definition unreachable_store : DocumentStoreContract := {|
  Ext := unit;
  store_method := fun _ _ _ u =>
    (Raised (BackendError "ConnectionError" "connection refused"), u);
  store_to_dict := fun store =>
    match store with VObj _ state => state | _ => VNone end;
  store_from_dict := fun cls data => Returned (VObj [cls] data);
  merge_backend_filters := fun init runtime => VList [init; runtime];
|}.

Definition connection_refused : Exception :=
  BackendError "ConnectionError" "connection refused".

(** The services the examples run against: an empty index, and the one
    state of the service that cannot be reached. *)
Definition empty_index : @Ext in_memory_store := [].
Definition offline : @Ext unreachable_store := tt.

Definition opensearch_store : PyVal :=
  VObj ["OpenSearchDocumentStore"] (VDict {[ "hosts" := VStr "localhost:9200" ]}).

Definition qdrant_store : PyVal :=
  VObj ["QdrantDocumentStore"] (VDict {[ "location" := VStr ":memory:" ]}).

(** The filters of the specification's examples. *)
Definition lang_en : gmap string PyVal := {[ "lang" := VStr "en" ]}.
Definition year_2020 : gmap string PyVal := {[ "year" := VStr "2020" ]}.

(** Retrievers with [top_k=10], [scale_score=True] and the filters
    [{"lang": "en"}], under the given filter policy. *)
Definition bm25_example (policy : FilterPolicy) (raise_on_failure : bool)
  : OpenSearchBM25Retriever.t :=
  OpenSearchBM25Retriever.mk opensearch_store (VDict lang_en) (VStr "AUTO")
    (VInt 10) (VBool true) (VBool true) policy VNone (VBool raise_on_failure).

Definition embedding_example (policy : FilterPolicy)
  : QdrantEmbeddingRetriever.t :=
  QdrantEmbeddingRetriever.mk qdrant_store (VDict lang_en) (VInt 10)
    (VBool true) (VBool false) policy (VFloat 0.5%float).

Definition sparse_example (policy : FilterPolicy)
  : QdrantSparseEmbeddingRetriever.t :=
  QdrantSparseEmbeddingRetriever.mk qdrant_store (VDict lang_en) (VInt 10)
    (VBool true) (VBool false) policy (VFloat 0.5%float).

Definition hybrid_example (policy : FilterPolicy)
  : QdrantHybridRetriever.t :=
  QdrantHybridRetriever.mk qdrant_store (VDict lang_en) (VInt 10)
    (VBool false) policy (VFloat 0.5%float).

(** The state in which a fresh retriever [r] is run: the service [e], no
    call made and nothing logged yet. *)
Definition fresh `{DocumentStoreContract} {Self} (r : Self) (e : Ext)
  : State Self :=
  mkState r e [] [].

(** The arguments of the example calls. *)
Definition example_query : PyVal := VStr "Why did the revenue increase?".

Definition example_embedding : PyVal :=
  VList [VFloat 0.25%float; VFloat 0.25%float].

Definition example_sparse_embedding : PyVal :=
  VObj ["SparseEmbedding"]
       (VDict {[ "indices" := VList [VInt 0; VInt 3];
                 "values" := VList [VFloat 0.25%float; VFloat 0.5%float] ]}).

(** Two documents, and a service whose index holds them. *)
Definition doc_a : Document := mkDocument "a" "first" (Some 0.5%float) None.
Definition doc_b : Document := mkDocument "b" "second" (Some 0.25%float) None.
Definition two_documents : @Ext in_memory_store := [doc_a; doc_b].

(** Serialized retrievers, as a pipeline file holds them: one complete, one
    whose ["init_parameters"] lack the filter policy. *)
Definition serialized_store : PyVal :=
  VDict {[ "location" := VStr ":memory:" ]}.

Definition serialized_retriever : gmap string PyVal :=
  {[ "init_parameters" :=
       VDict {[ "document_store" := serialized_store;
                "filter_policy" := VStr "merge";
                "top_k" := VInt 3 ]} ]}.

Definition serialized_without_policy : gmap string PyVal :=
  {[ "init_parameters" :=
       VDict {[ "document_store" := serialized_store; "top_k" := VInt 3 ]} ]}.

Definition serialized_with_broken_store : gmap string PyVal :=
  {[ "init_parameters" :=
       VDict {[ "document_store" := VNone; "filter_policy" := VStr "merge" ]} ]}.

(** A store class whose [from_dict] accepts mappings only. *)
Definition invalid_store_data : Exception :=
  BackendError "DeserializationError" "the serialized store is no mapping".

Definition validating_store : DocumentStoreContract := {|
  Ext := list Document;
  store_method := fun _ _ _ docs => (Returned docs, docs);
  store_to_dict := fun store =>
    match store with VObj _ state => state | _ => VNone end;
  store_from_dict := fun cls data =>
    match data with
    | VDict _ => Returned (VObj [cls] data)
    | _ => Raised invalid_store_data
    end;
  merge_backend_filters := fun init runtime => VList [init; runtime];
|}.

(* ===================================================================== *)
(** ** Properties *)
(* ===================================================================== *)

Section MonadLemmas.
Context `{DocumentStoreContract}.

Lemma bind_run {Self A B} (m : M Self A) (f : A -> M Self B) st :
  (m ≫= f) st =
  match m st with
  | (Returned a, st') => f a st'
  | (Raised e, st') => (Raised e, st')
  end.
Proof. reflexivity. Qed.

Lemma getattr_run {Self A} (attr : Self -> A) st :
  getattr attr st = (Returned (attr (self st)), st).
Proof. reflexivity. Qed.

Lemma mret_run {Self A} (a : A) (st : State Self) :
  (mret a : M Self A) st = (Returned a, st).
Proof. reflexivity. Qed.

Lemma unless_None_run {Self} (x : PyVal) (attr : Self -> PyVal) st :
  (if is_None x then getattr attr else mret x) st
  = (Returned (unless_None x (attr (self st))), st).
Proof. unfold unless_None. destruct (is_None x); reflexivity. Qed.

Lemma py_or_run {Self} (x : PyVal) (attr : Self -> PyVal) st :
  (if truthy x then mret x else getattr attr) st
  = (Returned (py_or x (attr (self st))), st).
Proof. unfold py_or. destruct (truthy x); reflexivity. Qed.

End MonadLemmas.

Ltac run_steps :=
  repeat (rewrite ?bind_run, ?unless_None_run, ?py_or_run,
            ?getattr_run, ?mret_run).

Section BM25.
Context `{DocumentStoreContract}.
Import OpenSearchBM25Retriever.

(** What one [run] does: it makes one call of [_bm25_retrieval] with the
    resolved parameters, and its result, the log and the receiver afterwards
    are determined by the answer of the service. *)
Lemma bm25_run_spec (query filters all_terms_must_match top_k fuzziness
                     scale_score custom_query : PyVal) (st : State t) :
  let m := run query filters all_terms_must_match top_k fuzziness scale_score
               custom_query in
  ∃ c : StoreCall,
    call_target c = _document_store (self st) ∧
    call_method c = "_bm25_retrieval" ∧
    call_kwargs c = list_to_map
      [("query", query);
       ("filters",
        unless_None
          (apply_filter_policy (_filter_policy (self st)) (_filters (self st))
                               filters)
          (_filters (self st)));
       ("fuzziness", unless_None fuzziness (_fuzziness (self st)));
       ("top_k", unless_None top_k (_top_k (self st)));
       ("scale_score", unless_None scale_score (_scale_score (self st)));
       ("all_terms_must_match",
        unless_None all_terms_must_match (_all_terms_must_match (self st)));
       ("custom_query", unless_None custom_query (_custom_query (self st)))] ∧
    makes_call m st c ∧
    (m st).1 =
      match answer st c with
      | Returned docs => Returned (mkOutput docs)
      | Raised e =>
          if truthy (_raise_on_failure (self st)) then Raised e
          else Returned (mkOutput [])
      end ∧
    log (m st).2 =
      match answer st c with
      | Returned _ => log st
      | Raised e =>
          if truthy (_raise_on_failure (self st)) then log st
          else (log st ++ [bm25_warning e])%list
      end.
Proof.
  cbv zeta. eexists (mkStoreCall _ _ _).
  split; [reflexivity|]. split; [reflexivity|]. split; [reflexivity|].
  unfold makes_call, answer, run. run_steps.
  unfold try_except, call_store. cbn [call_target call_method call_kwargs].
  destruct (store_method _ _ _ _) as [[docs|e] ext'].
  - rewrite mret_run. repeat split.
  - run_steps. cbn [self]. destruct (truthy _); repeat split.
Qed.

End BM25.

Section Embedding.
Context `{DocumentStoreContract}.
Import QdrantEmbeddingRetriever.

(** What one [run] does: it makes one call of [_query_by_embedding] with the
    resolved parameters and hands on whatever the service answers. *)
Lemma embedding_run_spec (query_embedding filters top_k scale_score return_embedding
                          score_threshold : PyVal) (st : State t) :
  let m := run query_embedding filters top_k scale_score return_embedding
                          score_threshold in
  ∃ c : StoreCall,
    call_target c = _document_store (self st) ∧
    call_method c = "_query_by_embedding" ∧
    call_kwargs c = list_to_map
      [("query_embedding", query_embedding);
       ("filters",
        apply_filter_policy (_filter_policy (self st)) (_filters (self st))
                            filters);
       ("top_k", py_or top_k (_top_k (self st)));
       ("scale_score", py_or scale_score (_scale_score (self st)));
       ("return_embedding",
        py_or return_embedding (_return_embedding (self st)));
       ("score_threshold",
        py_or score_threshold (_score_threshold (self st)))] ∧
    makes_call m st c ∧
    (m st).1 =
      match answer st c with
      | Returned docs => Returned (mkOutput docs)
      | Raised e => Raised e
      end ∧
    log (m st).2 = log st.
Proof.
  cbv zeta. eexists (mkStoreCall _ _ _).
  split; [reflexivity|]. split; [reflexivity|]. split; [reflexivity|].
  unfold makes_call, answer, run. run_steps.
  unfold call_store. cbn [call_target call_method call_kwargs].
  destruct (store_method _ _ _ _) as [[docs|e] ext'].
  - rewrite mret_run. repeat split.
  - repeat split.
Qed.

End Embedding.

Section Sparse.
Context `{DocumentStoreContract}.
Import QdrantSparseEmbeddingRetriever.

(** What one [run] does: it makes one call of [_query_by_sparse] with the
    resolved parameters and hands on whatever the service answers. *)
Lemma sparse_run_spec (query_sparse_embedding filters top_k scale_score
                       return_embedding score_threshold : PyVal) (st : State t) :
  let m := run query_sparse_embedding filters top_k scale_score
                       return_embedding score_threshold in
  ∃ c : StoreCall,
    call_target c = _document_store (self st) ∧
    call_method c = "_query_by_sparse" ∧
    call_kwargs c = list_to_map
      [("query_sparse_embedding", query_sparse_embedding);
       ("filters",
        apply_filter_policy (_filter_policy (self st)) (_filters (self st))
                            filters);
       ("top_k", py_or top_k (_top_k (self st)));
       ("scale_score", py_or scale_score (_scale_score (self st)));
       ("return_embedding",
        py_or return_embedding (_return_embedding (self st)));
       ("score_threshold",
        py_or score_threshold (_score_threshold (self st)))] ∧
    makes_call m st c ∧
    (m st).1 =
      match answer st c with
      | Returned docs => Returned (mkOutput docs)
      | Raised e => Raised e
      end ∧
    log (m st).2 = log st.
Proof.
  cbv zeta. eexists (mkStoreCall _ _ _).
  split; [reflexivity|]. split; [reflexivity|]. split; [reflexivity|].
  unfold makes_call, answer, run. run_steps.
  unfold call_store. cbn [call_target call_method call_kwargs].
  destruct (store_method _ _ _ _) as [[docs|e] ext'].
  - rewrite mret_run. repeat split.
  - repeat split.
Qed.

End Sparse.

Section Hybrid.
Context `{DocumentStoreContract}.
Import QdrantHybridRetriever.

(** What one [run] does: it makes one call of [_query_hybrid] with the
    resolved parameters and hands on whatever the service answers. *)
Lemma hybrid_run_spec (query_embedding query_sparse_embedding filters top_k
                       return_embedding score_threshold : PyVal) (st : State t) :
  let m := run query_embedding query_sparse_embedding filters top_k
                       return_embedding score_threshold in
  ∃ c : StoreCall,
    call_target c = _document_store (self st) ∧
    call_method c = "_query_hybrid" ∧
    call_kwargs c = list_to_map
      [("query_embedding", query_embedding);
       ("query_sparse_embedding", query_sparse_embedding);
       ("filters",
        apply_filter_policy (_filter_policy (self st)) (_filters (self st))
                            filters);
       ("top_k", py_or top_k (_top_k (self st)));
       ("return_embedding",
        py_or return_embedding (_return_embedding (self st)));
       ("score_threshold",
        py_or score_threshold (_score_threshold (self st)))] ∧
    makes_call m st c ∧
    (m st).1 =
      match answer st c with
      | Returned docs => Returned (mkOutput docs)
      | Raised e => Raised e
      end ∧
    log (m st).2 = log st.
Proof.
  cbv zeta. eexists (mkStoreCall _ _ _).
  split; [reflexivity|]. split; [reflexivity|]. split; [reflexivity|].
  unfold makes_call, answer, run. run_steps.
  unfold call_store. cbn [call_target call_method call_kwargs].
  destruct (store_method _ _ _ _) as [[docs|e] ext'].
  - rewrite mret_run. repeat split.
  - repeat split.
Qed.

End Hybrid.

(** *** The receiver is only read *)

Section Frame.
Context `{DocumentStoreContract}.
Context {Self : Type}.

Lemma preserves_self_ret {A} (a : A) : preserves_self (mret a : M Self A).
Proof. intros st. reflexivity. Qed.

Lemma preserves_self_bind {A B} (m : M Self A) (f : A -> M Self B) :
  preserves_self m -> (forall a, preserves_self (f a)) ->
  preserves_self (m ≫= f).
Proof.
  intros Hm Hf st. rewrite bind_run.
  specialize (Hm st). destruct (m st) as [[a|e] st']; cbn in *.
  - rewrite Hf. exact Hm.
  - exact Hm.
Qed.

Lemma preserves_self_getattr {A} (attr : Self -> A) :
  preserves_self (getattr attr).
Proof. intros st. reflexivity. Qed.

Lemma preserves_self_raise {A} (e : Exception) :
  preserves_self (raise e : M Self A).
Proof. intros st. reflexivity. Qed.

Lemma preserves_self_try_except {A}
    (body : M Self A) (handler : Exception -> M Self A) :
  preserves_self body -> (forall e, preserves_self (handler e)) ->
  preserves_self (try_except body handler).
Proof.
  intros Hb Hh st. unfold try_except.
  specialize (Hb st). destruct (body st) as [[a|e] st']; cbn in *.
  - exact Hb.
  - rewrite Hh. exact Hb.
Qed.

Lemma preserves_self_call_store store name kwargs :
  preserves_self (call_store (Self:=Self) store name kwargs).
Proof.
  intros st. unfold call_store.
  destruct (store_method _ _ _ _) as [res ext']. reflexivity.
Qed.

Lemma preserves_self_logger_warning fmt args exc_info :
  preserves_self (logger_warning (Self:=Self) fmt args exc_info).
Proof. intros st. reflexivity. Qed.

Lemma preserves_self_if {A} (b : bool) (m1 m2 : M Self A) :
  preserves_self m1 -> preserves_self m2 ->
  preserves_self (if b then m1 else m2).
Proof. destruct b; trivial. Qed.

End Frame.

Create HintDb frame.
#[global] Hint Resolve preserves_self_ret preserves_self_bind
  preserves_self_getattr preserves_self_raise preserves_self_try_except
  preserves_self_call_store preserves_self_logger_warning preserves_self_if
  : frame.

Section FramePerClass.
Context `{DocumentStoreContract}.

Lemma bm25_run_preserves_self q f a k fz ss cq :
  preserves_self (OpenSearchBM25Retriever.run q f a k fz ss cq).
Proof. unfold OpenSearchBM25Retriever.run. cbv zeta. auto 40 with frame. Qed.

Lemma embedding_run_preserves_self q f k ss re th :
  preserves_self (QdrantEmbeddingRetriever.run q f k ss re th).
Proof. unfold QdrantEmbeddingRetriever.run. cbv zeta. auto 40 with frame. Qed.

Lemma sparse_run_preserves_self q f k ss re th :
  preserves_self (QdrantSparseEmbeddingRetriever.run q f k ss re th).
Proof.
  unfold QdrantSparseEmbeddingRetriever.run. cbv zeta. auto 40 with frame.
Qed.

Lemma hybrid_run_preserves_self q qs f k re th :
  preserves_self (QdrantHybridRetriever.run q qs f k re th).
Proof. unfold QdrantHybridRetriever.run. cbv zeta. auto 40 with frame. Qed.

End FramePerClass.

(** *** The one call reaches the store *)

Section ReachesStore.
Context `{DocumentStoreContract}.

Lemma bm25_call_reaches_store
    (query filters all_terms_must_match top_k fuzziness scale_score
     custom_query : PyVal)
    (st : State OpenSearchBM25Retriever.t) (c : StoreCall) :
  let m := OpenSearchBM25Retriever.run
             query filters all_terms_must_match top_k fuzziness scale_score
             custom_query in
  makes_call m st c ->
  ext (m st).2
  = (store_method "_bm25_retrieval"
       (OpenSearchBM25Retriever._document_store (self st)) (call_kwargs c)
       (ext st)).2
  ∧ (∀ docs, answer st c = Returned docs ->
             (m st).1 = Returned (mkOutput docs)).
Proof.
  cbv zeta. intros Hc.
  destruct (bm25_run_spec
              query filters all_terms_must_match top_k fuzziness scale_score
              custom_query st)
    as (c' & _ & _ & Hkw & Hc' & Hres & _).
  cbv zeta in Hc', Hres. unfold makes_call in Hc, Hc'.
  rewrite Hc' in Hc. apply app_inv_head in Hc. injection Hc as ->.
  split.
  - rewrite Hkw. unfold OpenSearchBM25Retriever.run. run_steps.
    unfold try_except, call_store.
    destruct (store_method _ _ _ _) as [[docs|e] ext'].
    + rewrite mret_run. reflexivity.
    + run_steps. cbn [self]. destruct (truthy _); reflexivity.
  - intros docs Ha. rewrite Hres, Ha. reflexivity.
Qed.

Lemma embedding_call_reaches_store
    (query_embedding filters top_k scale_score return_embedding
     score_threshold : PyVal)
    (st : State QdrantEmbeddingRetriever.t) (c : StoreCall) :
  let m := QdrantEmbeddingRetriever.run
             query_embedding filters top_k scale_score return_embedding
             score_threshold in
  makes_call m st c ->
  ext (m st).2
  = (store_method "_query_by_embedding"
       (QdrantEmbeddingRetriever._document_store (self st)) (call_kwargs c)
       (ext st)).2
  ∧ (∀ docs, answer st c = Returned docs ->
             (m st).1 = Returned (mkOutput docs)).
Proof.
  cbv zeta. intros Hc.
  destruct (embedding_run_spec
              query_embedding filters top_k scale_score return_embedding
              score_threshold st)
    as (c' & _ & _ & Hkw & Hc' & Hres & _).
  cbv zeta in Hc', Hres. unfold makes_call in Hc, Hc'.
  rewrite Hc' in Hc. apply app_inv_head in Hc. injection Hc as ->.
  split.
  - rewrite Hkw. unfold QdrantEmbeddingRetriever.run. run_steps.
    unfold call_store.
    destruct (store_method _ _ _ _) as [[docs|e] ext'].
    + rewrite mret_run. reflexivity.
    + reflexivity.
  - intros docs Ha. rewrite Hres, Ha. reflexivity.
Qed.

Lemma sparse_call_reaches_store
    (query_sparse_embedding filters top_k scale_score return_embedding
     score_threshold : PyVal)
    (st : State QdrantSparseEmbeddingRetriever.t) (c : StoreCall) :
  let m := QdrantSparseEmbeddingRetriever.run
             query_sparse_embedding filters top_k scale_score return_embedding
             score_threshold in
  makes_call m st c ->
  ext (m st).2
  = (store_method "_query_by_sparse"
       (QdrantSparseEmbeddingRetriever._document_store (self st)) (call_kwargs c)
       (ext st)).2
  ∧ (∀ docs, answer st c = Returned docs ->
             (m st).1 = Returned (mkOutput docs)).
Proof.
  cbv zeta. intros Hc.
  destruct (sparse_run_spec
              query_sparse_embedding filters top_k scale_score return_embedding
              score_threshold st)
    as (c' & _ & _ & Hkw & Hc' & Hres & _).
  cbv zeta in Hc', Hres. unfold makes_call in Hc, Hc'.
  rewrite Hc' in Hc. apply app_inv_head in Hc. injection Hc as ->.
  split.
  - rewrite Hkw. unfold QdrantSparseEmbeddingRetriever.run. run_steps.
    unfold call_store.
    destruct (store_method _ _ _ _) as [[docs|e] ext'].
    + rewrite mret_run. reflexivity.
    + reflexivity.
  - intros docs Ha. rewrite Hres, Ha. reflexivity.
Qed.

Lemma hybrid_call_reaches_store
    (query_embedding query_sparse_embedding filters top_k
     return_embedding score_threshold : PyVal)
    (st : State QdrantHybridRetriever.t) (c : StoreCall) :
  let m := QdrantHybridRetriever.run
             query_embedding query_sparse_embedding filters top_k
             return_embedding score_threshold in
  makes_call m st c ->
  ext (m st).2
  = (store_method "_query_hybrid"
       (QdrantHybridRetriever._document_store (self st)) (call_kwargs c)
       (ext st)).2
  ∧ (∀ docs, answer st c = Returned docs ->
             (m st).1 = Returned (mkOutput docs)).
Proof.
  cbv zeta. intros Hc.
  destruct (hybrid_run_spec
              query_embedding query_sparse_embedding filters top_k
              return_embedding score_threshold st)
    as (c' & _ & _ & Hkw & Hc' & Hres & _).
  cbv zeta in Hc', Hres. unfold makes_call in Hc, Hc'.
  rewrite Hc' in Hc. apply app_inv_head in Hc. injection Hc as ->.
  split.
  - rewrite Hkw. unfold QdrantHybridRetriever.run. run_steps.
    unfold call_store.
    destruct (store_method _ _ _ _) as [[docs|e] ext'].
    + rewrite mret_run. reflexivity.
    + reflexivity.
  - intros docs Ha. rewrite Hres, Ha. reflexivity.
Qed.

End ReachesStore.

(** *** Parameter resolution *)

(** A value counts as forwarded to the store when [passes_to_store] holds:
    the run makes its one call on the retriever's own document store, of
    the query method of its class, with the value under the keyword, and
    the service and the result of the run are those of that call. *)

Ltac forwards_by spec :=
  let c := fresh "c" in
  let Hkw := fresh "Hkw" in
  let Hc := fresh "Hc" in
  destruct spec as (c & _ & _ & Hkw & Hc & _);
  exists c; split; [exact Hc | rewrite Hkw].

Ltac passes_by spec reach :=
  let c := fresh "c" in
  let Ht := fresh "Ht" in
  let Hm := fresh "Hm" in
  let Hkw := fresh "Hkw" in
  let Hc := fresh "Hc" in
  destruct spec as (c & Ht & Hm & Hkw & Hc & _);
  exists c;
  split; [exact Hc|]; split; [exact Ht|]; split; [exact Hm|];
  split; [rewrite Hkw | apply reach; exact Hc].

Section Resolution.
Context `{DocumentStoreContract}.
Variable bm25 : State OpenSearchBM25Retriever.t.
Variable dense : State QdrantEmbeddingRetriever.t.
Variable sparse : State QdrantSparseEmbeddingRetriever.t.
Variable hybrid : State QdrantHybridRetriever.t.
Variables query query_embedding query_sparse_embedding : PyVal.
Variables filters all_terms_must_match top_k fuzziness scale_score : PyVal.
Variables return_embedding score_threshold custom_query : PyVal.

(** C1: with the configured default [scale_score=True], the call-time
    override [scale_score=False] leaves the value forwarded to the store at
    [True] in [QdrantEmbeddingRetriever.run] and
    [QdrantSparseEmbeddingRetriever.run], whose [or] cannot tell [False] from
    an argument that was not given (the whole run is the same as with
    [None]); [OpenSearchBM25Retriever.run] tests [is None] and forwards
    [False], whatever its configured default. *)
Theorem scale_score_false_override :
  QdrantEmbeddingRetriever._scale_score (self dense) = VBool true ->
  QdrantSparseEmbeddingRetriever._scale_score (self sparse) = VBool true ->
  passes_to_store
    (QdrantEmbeddingRetriever.run query_embedding filters top_k (VBool false)
       return_embedding score_threshold)
    dense (QdrantEmbeddingRetriever._document_store (self dense))
    "_query_by_embedding" "scale_score" (VBool true)
  ∧ QdrantEmbeddingRetriever.run query_embedding filters top_k (VBool false)
      return_embedding score_threshold dense
    = QdrantEmbeddingRetriever.run query_embedding filters top_k VNone
        return_embedding score_threshold dense
  ∧ passes_to_store
      (QdrantSparseEmbeddingRetriever.run query_sparse_embedding filters top_k
         (VBool false) return_embedding score_threshold)
      sparse (QdrantSparseEmbeddingRetriever._document_store (self sparse))
      "_query_by_sparse" "scale_score" (VBool true)
  ∧ QdrantSparseEmbeddingRetriever.run query_sparse_embedding filters top_k
      (VBool false) return_embedding score_threshold sparse
    = QdrantSparseEmbeddingRetriever.run query_sparse_embedding filters top_k
        VNone return_embedding score_threshold sparse
  ∧ passes_to_store
      (OpenSearchBM25Retriever.run query filters all_terms_must_match top_k
         fuzziness (VBool false) custom_query)
      bm25 (OpenSearchBM25Retriever._document_store (self bm25))
      "_bm25_retrieval" "scale_score" (VBool false).
Proof.
  intros Hd Hs. repeat split.
  - passes_by (embedding_run_spec query_embedding filters top_k (VBool false)
                   return_embedding score_threshold dense)
                     embedding_call_reaches_store.
    rewrite Hd. reflexivity.
  - passes_by (sparse_run_spec query_sparse_embedding filters top_k
                   (VBool false) return_embedding score_threshold sparse)
                     sparse_call_reaches_store.
    rewrite Hs. reflexivity.
  - passes_by (bm25_run_spec query filters all_terms_must_match top_k
                   fuzziness (VBool false) custom_query bm25)
                     bm25_call_reaches_store.
    reflexivity.
Qed.

(** C6: with the configured default [top_k=10], every variant forwards
    [top_k=5] when called with [top_k=5] and [top_k=10] when called with
    [top_k] left at [None]. *)
Theorem top_k_resolution :
  OpenSearchBM25Retriever._top_k (self bm25) = VInt 10 ->
  QdrantEmbeddingRetriever._top_k (self dense) = VInt 10 ->
  QdrantSparseEmbeddingRetriever._top_k (self sparse) = VInt 10 ->
  QdrantHybridRetriever._top_k (self hybrid) = VInt 10 ->
  (passes_to_store
     (OpenSearchBM25Retriever.run query filters all_terms_must_match (VInt 5)
        fuzziness scale_score custom_query) bm25
          (OpenSearchBM25Retriever._document_store (self bm25))
          "_bm25_retrieval" "top_k" (VInt 5)
   ∧ passes_to_store
       (QdrantEmbeddingRetriever.run query_embedding filters (VInt 5)
          scale_score return_embedding score_threshold) dense
            (QdrantEmbeddingRetriever._document_store (self dense))
            "_query_by_embedding" "top_k" (VInt 5)
   ∧ passes_to_store
       (QdrantSparseEmbeddingRetriever.run query_sparse_embedding filters
          (VInt 5) scale_score return_embedding score_threshold)
       sparse (QdrantSparseEmbeddingRetriever._document_store (self sparse))
       "_query_by_sparse" "top_k" (VInt 5)
   ∧ passes_to_store
       (QdrantHybridRetriever.run query_embedding query_sparse_embedding
          filters (VInt 5) return_embedding score_threshold)
       hybrid (QdrantHybridRetriever._document_store (self hybrid))
       "_query_hybrid" "top_k" (VInt 5))
  ∧
  (passes_to_store
     (OpenSearchBM25Retriever.run query filters all_terms_must_match VNone
        fuzziness scale_score custom_query) bm25
          (OpenSearchBM25Retriever._document_store (self bm25))
          "_bm25_retrieval" "top_k" (VInt 10)
   ∧ passes_to_store
       (QdrantEmbeddingRetriever.run query_embedding filters VNone
          scale_score return_embedding score_threshold) dense
            (QdrantEmbeddingRetriever._document_store (self dense))
            "_query_by_embedding" "top_k" (VInt 10)
   ∧ passes_to_store
       (QdrantSparseEmbeddingRetriever.run query_sparse_embedding filters
          VNone scale_score return_embedding score_threshold)
       sparse (QdrantSparseEmbeddingRetriever._document_store (self sparse))
       "_query_by_sparse" "top_k" (VInt 10)
   ∧ passes_to_store
       (QdrantHybridRetriever.run query_embedding query_sparse_embedding
          filters VNone return_embedding score_threshold)
       hybrid (QdrantHybridRetriever._document_store (self hybrid))
       "_query_hybrid" "top_k" (VInt 10)).
Proof.
  intros Hb Hd Hs Hh. repeat split.
  - passes_by (bm25_run_spec query filters all_terms_must_match (VInt 5)
                   fuzziness scale_score custom_query bm25)
                     bm25_call_reaches_store.
    reflexivity.
  - passes_by (embedding_run_spec query_embedding filters (VInt 5)
                   scale_score return_embedding score_threshold dense)
                     embedding_call_reaches_store.
    reflexivity.
  - passes_by (sparse_run_spec query_sparse_embedding filters (VInt 5)
                   scale_score return_embedding score_threshold sparse)
                     sparse_call_reaches_store.
    reflexivity.
  - passes_by (hybrid_run_spec query_embedding query_sparse_embedding
                   filters (VInt 5) return_embedding score_threshold hybrid)
                     hybrid_call_reaches_store.
    reflexivity.
  - passes_by (bm25_run_spec query filters all_terms_must_match VNone
                   fuzziness scale_score custom_query bm25)
                     bm25_call_reaches_store.
    rewrite Hb. reflexivity.
  - passes_by (embedding_run_spec query_embedding filters VNone
                   scale_score return_embedding score_threshold dense)
                     embedding_call_reaches_store.
    rewrite Hd. reflexivity.
  - passes_by (sparse_run_spec query_sparse_embedding filters VNone
                   scale_score return_embedding score_threshold sparse)
                     sparse_call_reaches_store.
    rewrite Hs. reflexivity.
  - passes_by (hybrid_run_spec query_embedding query_sparse_embedding
                   filters VNone return_embedding score_threshold hybrid)
                     hybrid_call_reaches_store.
    rewrite Hh. reflexivity.
Qed.

(** C10: the three Qdrant variants resolve the numeric parameters with [or]
    as well: a call-time [top_k=0] is replaced by the configured [top_k] and
    a call-time [score_threshold=0.0] by the configured [score_threshold];
    [OpenSearchBM25Retriever.run] tests [is None] and forwards [top_k=0]. *)
Theorem zero_overrides :
  (passes_to_store
     (QdrantEmbeddingRetriever.run query_embedding filters (VInt 0)
        scale_score return_embedding score_threshold)
     dense (QdrantEmbeddingRetriever._document_store (self dense))
     "_query_by_embedding" "top_k" (QdrantEmbeddingRetriever._top_k (self dense))
   ∧ passes_to_store
       (QdrantSparseEmbeddingRetriever.run query_sparse_embedding filters
          (VInt 0) scale_score return_embedding score_threshold)
       sparse (QdrantSparseEmbeddingRetriever._document_store (self sparse))
       "_query_by_sparse" "top_k" (QdrantSparseEmbeddingRetriever._top_k (self sparse))
   ∧ passes_to_store
       (QdrantHybridRetriever.run query_embedding query_sparse_embedding
          filters (VInt 0) return_embedding score_threshold)
       hybrid (QdrantHybridRetriever._document_store (self hybrid))
       "_query_hybrid" "top_k" (QdrantHybridRetriever._top_k (self hybrid)))
  ∧
  (passes_to_store
     (QdrantEmbeddingRetriever.run query_embedding filters top_k
        scale_score return_embedding (VFloat 0%float))
     dense (QdrantEmbeddingRetriever._document_store (self dense))
     "_query_by_embedding" "score_threshold"
     (QdrantEmbeddingRetriever._score_threshold (self dense))
   ∧ passes_to_store
       (QdrantSparseEmbeddingRetriever.run query_sparse_embedding filters
          top_k scale_score return_embedding (VFloat 0%float))
       sparse (QdrantSparseEmbeddingRetriever._document_store (self sparse))
       "_query_by_sparse" "score_threshold"
       (QdrantSparseEmbeddingRetriever._score_threshold (self sparse))
   ∧ passes_to_store
       (QdrantHybridRetriever.run query_embedding query_sparse_embedding
          filters top_k return_embedding (VFloat 0%float))
       hybrid (QdrantHybridRetriever._document_store (self hybrid))
       "_query_hybrid" "score_threshold"
       (QdrantHybridRetriever._score_threshold (self hybrid)))
  ∧
  passes_to_store
    (OpenSearchBM25Retriever.run query filters all_terms_must_match (VInt 0)
       fuzziness scale_score custom_query) bm25
         (OpenSearchBM25Retriever._document_store (self bm25))
         "_bm25_retrieval" "top_k" (VInt 0).
Proof.
  repeat split.
  - passes_by (embedding_run_spec query_embedding filters (VInt 0)
                   scale_score return_embedding score_threshold dense)
                     embedding_call_reaches_store.
    reflexivity.
  - passes_by (sparse_run_spec query_sparse_embedding filters (VInt 0)
                   scale_score return_embedding score_threshold sparse)
                     sparse_call_reaches_store.
    reflexivity.
  - passes_by (hybrid_run_spec query_embedding query_sparse_embedding
                   filters (VInt 0) return_embedding score_threshold hybrid)
                     hybrid_call_reaches_store.
    reflexivity.
  - passes_by (embedding_run_spec query_embedding filters top_k
                   scale_score return_embedding (VFloat 0%float) dense)
                     embedding_call_reaches_store.
    reflexivity.
  - passes_by (sparse_run_spec query_sparse_embedding filters top_k
                   scale_score return_embedding (VFloat 0%float) sparse)
                     sparse_call_reaches_store.
    reflexivity.
  - passes_by (hybrid_run_spec query_embedding query_sparse_embedding
                   filters top_k return_embedding (VFloat 0%float) hybrid)
                     hybrid_call_reaches_store.
    reflexivity.
  - passes_by (bm25_run_spec query filters all_terms_must_match (VInt 0)
                   fuzziness scale_score custom_query bm25)
                     bm25_call_reaches_store.
    reflexivity.
Qed.

(** *** Filter policies *)

(** C3: under the policy REPLACE every variant forwards the call-time
    filters exactly as given, and the configured filters when the call gives
    none. *)
Theorem replace_policy_filters :
  OpenSearchBM25Retriever._filter_policy (self bm25) = REPLACE ->
  QdrantEmbeddingRetriever._filter_policy (self dense) = REPLACE ->
  QdrantSparseEmbeddingRetriever._filter_policy (self sparse) = REPLACE ->
  QdrantHybridRetriever._filter_policy (self hybrid) = REPLACE ->
  (is_None filters = false ->
   passes_to_store
     (OpenSearchBM25Retriever.run query filters all_terms_must_match top_k
        fuzziness scale_score custom_query) bm25
          (OpenSearchBM25Retriever._document_store (self bm25))
          "_bm25_retrieval" "filters" filters
   ∧ passes_to_store
       (QdrantEmbeddingRetriever.run query_embedding filters top_k
          scale_score return_embedding score_threshold)
       dense (QdrantEmbeddingRetriever._document_store (self dense))
       "_query_by_embedding" "filters" filters
   ∧ passes_to_store
       (QdrantSparseEmbeddingRetriever.run query_sparse_embedding filters
          top_k scale_score return_embedding score_threshold)
       sparse (QdrantSparseEmbeddingRetriever._document_store (self sparse))
       "_query_by_sparse" "filters" filters
   ∧ passes_to_store
       (QdrantHybridRetriever.run query_embedding query_sparse_embedding
          filters top_k return_embedding score_threshold)
       hybrid (QdrantHybridRetriever._document_store (self hybrid))
       "_query_hybrid" "filters" filters)
  ∧
  (passes_to_store
     (OpenSearchBM25Retriever.run query VNone all_terms_must_match top_k
        fuzziness scale_score custom_query)
     bm25 (OpenSearchBM25Retriever._document_store (self bm25))
     "_bm25_retrieval" "filters" (OpenSearchBM25Retriever._filters (self bm25))
   ∧ passes_to_store
       (QdrantEmbeddingRetriever.run query_embedding VNone top_k
          scale_score return_embedding score_threshold)
       dense (QdrantEmbeddingRetriever._document_store (self dense))
       "_query_by_embedding" "filters" (QdrantEmbeddingRetriever._filters (self dense))
   ∧ passes_to_store
       (QdrantSparseEmbeddingRetriever.run query_sparse_embedding VNone
          top_k scale_score return_embedding score_threshold)
       sparse (QdrantSparseEmbeddingRetriever._document_store (self sparse))
       "_query_by_sparse" "filters"
       (QdrantSparseEmbeddingRetriever._filters (self sparse))
   ∧ passes_to_store
       (QdrantHybridRetriever.run query_embedding query_sparse_embedding
          VNone top_k return_embedding score_threshold)
       hybrid (QdrantHybridRetriever._document_store (self hybrid))
       "_query_hybrid" "filters" (QdrantHybridRetriever._filters (self hybrid))).
Proof.
  intros Hb Hd Hs Hh. split; [intros Hgiven|]; repeat split.
  - passes_by (bm25_run_spec query filters all_terms_must_match top_k
                   fuzziness scale_score custom_query bm25)
                     bm25_call_reaches_store.
    rewrite Hb. unfold apply_filter_policy, unless_None.
    rewrite Hgiven, Hgiven. reflexivity.
  - passes_by (embedding_run_spec query_embedding filters top_k
                   scale_score return_embedding score_threshold dense)
                     embedding_call_reaches_store.
    rewrite Hd. unfold apply_filter_policy. rewrite Hgiven. reflexivity.
  - passes_by (sparse_run_spec query_sparse_embedding filters top_k
                   scale_score return_embedding score_threshold sparse)
                     sparse_call_reaches_store.
    rewrite Hs. unfold apply_filter_policy. rewrite Hgiven. reflexivity.
  - passes_by (hybrid_run_spec query_embedding query_sparse_embedding
                   filters top_k return_embedding score_threshold hybrid)
                     hybrid_call_reaches_store.
    rewrite Hh. unfold apply_filter_policy. rewrite Hgiven. reflexivity.
  - passes_by (bm25_run_spec query VNone all_terms_must_match top_k
                   fuzziness scale_score custom_query bm25)
                     bm25_call_reaches_store.
    rewrite Hb. unfold apply_filter_policy, unless_None. cbn [is_None].
    destruct (is_None _); reflexivity.
  - passes_by (embedding_run_spec query_embedding VNone top_k
                   scale_score return_embedding score_threshold dense)
                     embedding_call_reaches_store.
    rewrite Hd. reflexivity.
  - passes_by (sparse_run_spec query_sparse_embedding VNone top_k
                   scale_score return_embedding score_threshold sparse)
                     sparse_call_reaches_store.
    rewrite Hs. reflexivity.
  - passes_by (hybrid_run_spec query_embedding query_sparse_embedding
                   VNone top_k return_embedding score_threshold hybrid)
                     hybrid_call_reaches_store.
    rewrite Hh. reflexivity.
Qed.

(** C4: under the policy MERGE, with a mapping [init] as configured filters
    and a mapping [runtime] as call-time filters, every variant forwards one
    and the same mapping, which holds every field of both: a field of
    [runtime] with the call-time value, a field of [init] alone with the
    configured value, and no other field. *)
Theorem merge_policy_filters (init runtime : gmap string PyVal) :
  OpenSearchBM25Retriever._filter_policy (self bm25) = MERGE ->
  QdrantEmbeddingRetriever._filter_policy (self dense) = MERGE ->
  QdrantSparseEmbeddingRetriever._filter_policy (self sparse) = MERGE ->
  QdrantHybridRetriever._filter_policy (self hybrid) = MERGE ->
  OpenSearchBM25Retriever._filters (self bm25) = VDict init ->
  QdrantEmbeddingRetriever._filters (self dense) = VDict init ->
  QdrantSparseEmbeddingRetriever._filters (self sparse) = VDict init ->
  QdrantHybridRetriever._filters (self hybrid) = VDict init ->
  ∃ effective : gmap string PyVal,
    (passes_to_store
       (OpenSearchBM25Retriever.run query (VDict runtime)
          all_terms_must_match top_k fuzziness scale_score custom_query)
       bm25 (OpenSearchBM25Retriever._document_store (self bm25))
       "_bm25_retrieval" "filters" (VDict effective)
     ∧ passes_to_store
         (QdrantEmbeddingRetriever.run query_embedding (VDict runtime) top_k
            scale_score return_embedding score_threshold)
         dense (QdrantEmbeddingRetriever._document_store (self dense))
         "_query_by_embedding" "filters" (VDict effective)
     ∧ passes_to_store
         (QdrantSparseEmbeddingRetriever.run query_sparse_embedding
            (VDict runtime) top_k scale_score return_embedding
            score_threshold)
         sparse (QdrantSparseEmbeddingRetriever._document_store (self sparse))
         "_query_by_sparse" "filters" (VDict effective)
     ∧ passes_to_store
         (QdrantHybridRetriever.run query_embedding query_sparse_embedding
            (VDict runtime) top_k return_embedding score_threshold)
         hybrid (QdrantHybridRetriever._document_store (self hybrid))
         "_query_hybrid" "filters" (VDict effective))
    ∧ (∀ k v, runtime !! k = Some v -> effective !! k = Some v)
    ∧ (∀ k v, init !! k = Some v -> runtime !! k = None ->
              effective !! k = Some v)
    ∧ (∀ k, init !! k = None -> runtime !! k = None -> effective !! k = None).
Proof.
  intros Hb Hd Hs Hh Fb Fd Fs Fh. exists (runtime ∪ init).
  split; [repeat split|].
  - passes_by (bm25_run_spec query (VDict runtime) all_terms_must_match
                   top_k fuzziness scale_score custom_query bm25)
                     bm25_call_reaches_store.
    rewrite Hb, Fb. reflexivity.
  - passes_by (embedding_run_spec query_embedding (VDict runtime) top_k
                   scale_score return_embedding score_threshold dense)
                     embedding_call_reaches_store.
    rewrite Hd, Fd. reflexivity.
  - passes_by (sparse_run_spec query_sparse_embedding (VDict runtime) top_k
                   scale_score return_embedding score_threshold sparse)
                     sparse_call_reaches_store.
    rewrite Hs, Fs. reflexivity.
  - passes_by (hybrid_run_spec query_embedding query_sparse_embedding
                   (VDict runtime) top_k return_embedding score_threshold
                   hybrid) hybrid_call_reaches_store.
    rewrite Hh, Fh. reflexivity.
  - split; [|split].
    + intros k v Hr. apply lookup_union_Some_l. exact Hr.
    + intros k v Hi Hr. rewrite lookup_union_r by exact Hr. exact Hi.
    + intros k Hi Hr. apply lookup_union_None. split; assumption.
Qed.

End Resolution.

(** *** Failures of the store *)

Lemma makes_call_inj `{DocumentStoreContract} {Self A}
    (m : M Self A) (st : State Self) (c c' : StoreCall) :
  makes_call m st c -> makes_call m st c' -> c = c'.
Proof.
  unfold makes_call. intros Hc Hc'. rewrite Hc in Hc'.
  apply app_inv_head in Hc'. congruence.
Qed.

Section Failures.
Context `{DocumentStoreContract}.
Variable bm25 : State OpenSearchBM25Retriever.t.
Variable dense : State QdrantEmbeddingRetriever.t.
Variable sparse : State QdrantSparseEmbeddingRetriever.t.
Variable hybrid : State QdrantHybridRetriever.t.
Variables query query_embedding query_sparse_embedding : PyVal.
Variables filters all_terms_must_match top_k fuzziness scale_score : PyVal.
Variables return_embedding score_threshold custom_query : PyVal.

(** C2: when the call of [_bm25_retrieval] that [run] makes raises [e],
    [run] raises [e] if and only if [raise_on_failure] is true, and then
    logs nothing; when [raise_on_failure] is false it returns
    [{"documents": []}] and logs one warning that carries [str(e)]. *)
Theorem bm25_store_failure (c : StoreCall) (e : Exception) :
  let m := OpenSearchBM25Retriever.run query filters all_terms_must_match
             top_k fuzziness scale_score custom_query in
  let raise_on_failure :=
    truthy (OpenSearchBM25Retriever._raise_on_failure (self bm25)) in
  makes_call m bm25 c ->
  answer bm25 c = Raised e ->
  ((m bm25).1 = Raised e <-> raise_on_failure = true)
  ∧ (raise_on_failure = true -> log (m bm25).2 = log bm25)
  ∧ (raise_on_failure = false ->
     (m bm25).1 = Returned (mkOutput [])
     ∧ log (m bm25).2 = (log bm25 ++ [bm25_warning e])%list).
Proof.
  cbv zeta. intros Hc He.
  destruct (bm25_run_spec query filters all_terms_must_match top_k fuzziness
              scale_score custom_query bm25) as (c' & _ & _ & _ & Hc' & Hres & Hlog).
  cbv zeta in Hc', Hres, Hlog.
  rewrite (makes_call_inj _ _ _ _ Hc' Hc) in Hres, Hlog.
  rewrite He in Hres, Hlog. rewrite Hres, Hlog.
  destruct (truthy _); repeat split; congruence.
Qed.

(** C8: when the call of the store's query method that [run] makes raises
    [e], each of the three Qdrant variants raises that same [e]: no result
    is returned in its place and nothing is logged. *)
Theorem qdrant_store_failure_propagates
    (cd cs ch : StoreCall) (ed es eh : Exception) :
  let md := QdrantEmbeddingRetriever.run query_embedding filters top_k
              scale_score return_embedding score_threshold in
  let ms := QdrantSparseEmbeddingRetriever.run query_sparse_embedding filters
              top_k scale_score return_embedding score_threshold in
  let mh := QdrantHybridRetriever.run query_embedding query_sparse_embedding
              filters top_k return_embedding score_threshold in
  makes_call md dense cd -> answer dense cd = Raised ed ->
  makes_call ms sparse cs -> answer sparse cs = Raised es ->
  makes_call mh hybrid ch -> answer hybrid ch = Raised eh ->
  ((md dense).1 = Raised ed ∧ log (md dense).2 = log dense)
  ∧ ((ms sparse).1 = Raised es ∧ log (ms sparse).2 = log sparse)
  ∧ ((mh hybrid).1 = Raised eh ∧ log (mh hybrid).2 = log hybrid).
Proof.
  cbv zeta. intros Hcd Hed Hcs Hes Hch Heh.
  destruct (embedding_run_spec query_embedding filters top_k scale_score
              return_embedding score_threshold dense)
    as (c1 & _ & _ & _ & Hc1 & Hr1 & Hl1).
  destruct (sparse_run_spec query_sparse_embedding filters top_k scale_score
              return_embedding score_threshold sparse)
    as (c2 & _ & _ & _ & Hc2 & Hr2 & Hl2).
  destruct (hybrid_run_spec query_embedding query_sparse_embedding filters
              top_k return_embedding score_threshold hybrid)
    as (c3 & _ & _ & _ & Hc3 & Hr3 & Hl3).
  cbv zeta in *.
  rewrite (makes_call_inj _ _ _ _ Hc1 Hcd), Hed in Hr1.
  rewrite (makes_call_inj _ _ _ _ Hc2 Hcs), Hes in Hr2.
  rewrite (makes_call_inj _ _ _ _ Hc3 Hch), Heh in Hr3.
  repeat split; assumption.
Qed.

(** C9: a run of any variant leaves every attribute of the retriever as it
    was, whichever arguments it is called with and whether it returns or
    raises. *)
Theorem run_leaves_configuration_unchanged :
  self (OpenSearchBM25Retriever.run query filters all_terms_must_match top_k
          fuzziness scale_score custom_query bm25).2 = self bm25
  ∧ self (QdrantEmbeddingRetriever.run query_embedding filters top_k
            scale_score return_embedding score_threshold dense).2 = self dense
  ∧ self (QdrantSparseEmbeddingRetriever.run query_sparse_embedding filters
            top_k scale_score return_embedding score_threshold sparse).2
    = self sparse
  ∧ self (QdrantHybridRetriever.run query_embedding query_sparse_embedding
            filters top_k return_embedding score_threshold hybrid).2
    = self hybrid.
Proof.
  repeat split.
  - apply bm25_run_preserves_self.
  - apply embedding_run_preserves_self.
  - apply sparse_run_preserves_self.
  - apply hybrid_run_preserves_self.
Qed.

End Failures.

(** *** Construction *)

(** C7: each of the four constructors, given a [document_store] that is not
    an instance of the store class it expects, raises [ValueError]: the
    outcome is the exception and no retriever, whatever the other arguments
    are. *)
Theorem wrong_store_type_is_rejected
    (not_opensearch not_qdrant filters fuzziness top_k scale_score
     all_terms_must_match return_embedding filter_policy score_threshold
     custom_query raise_on_failure : PyVal) :
  isinstance not_opensearch "OpenSearchDocumentStore" = false ->
  isinstance not_qdrant "QdrantDocumentStore" = false ->
  OpenSearchBM25Retriever.__init__ not_opensearch filters fuzziness top_k
    scale_score all_terms_must_match filter_policy custom_query
    raise_on_failure
  = Raised (ValueError
              "document_store must be an instance of OpenSearchDocumentStore")
  ∧ QdrantEmbeddingRetriever.__init__ not_qdrant filters top_k scale_score
      return_embedding filter_policy score_threshold
    = Raised (ValueError
                "document_store must be an instance of QdrantDocumentStore")
  ∧ QdrantSparseEmbeddingRetriever.__init__ not_qdrant filters top_k
      scale_score return_embedding filter_policy score_threshold
    = Raised (ValueError
                "document_store must be an instance of QdrantDocumentStore")
  ∧ QdrantHybridRetriever.__init__ not_qdrant filters top_k
      return_embedding filter_policy score_threshold
    = Raised (ValueError
                "document_store must be an instance of QdrantDocumentStore").
Proof.
  intros Hos Hq.
  unfold OpenSearchBM25Retriever.__init__, QdrantEmbeddingRetriever.__init__,
    QdrantSparseEmbeddingRetriever.__init__, QdrantHybridRetriever.__init__.
  rewrite Hos, Hq. repeat split.
Qed.

(** *** Serialization *)

Lemma py_or_idempotent (x d : PyVal) : py_or (py_or x d) d = py_or x d.
Proof.
  unfold py_or. destruct (truthy x) eqn:Hx.
  - rewrite Hx. reflexivity.
  - destruct (truthy d); reflexivity.
Qed.

Section RoundTrip.
Context `{DocumentStoreContract}.

(** Deserializing the serialized form of a BM25 retriever whose attributes
    are as [__init__] leaves them gives every attribute back except
    [_all_terms_must_match]: [to_dict] does not write it, so it comes back as
    the default [False] of the constructor. *)
Lemma bm25_round_trip_of_attributes (r : OpenSearchBM25Retriever.t) :
  let store := OpenSearchBM25Retriever._document_store r in
  store_from_dict "OpenSearchDocumentStore" (store_to_dict store)
    = Returned store ->
  isinstance store "OpenSearchDocumentStore" = true ->
  py_or (OpenSearchBM25Retriever._filters r) (VDict ∅)
    = OpenSearchBM25Retriever._filters r ->
  OpenSearchBM25Retriever.to_dict r ≫= OpenSearchBM25Retriever.from_dict
  = Returned
      (OpenSearchBM25Retriever.mk
         (OpenSearchBM25Retriever._document_store r)
         (OpenSearchBM25Retriever._filters r)
         (OpenSearchBM25Retriever._fuzziness r)
         (OpenSearchBM25Retriever._top_k r)
         (OpenSearchBM25Retriever._scale_score r)
         (VBool false)
         (OpenSearchBM25Retriever._filter_policy r)
         (OpenSearchBM25Retriever._custom_query r)
         (OpenSearchBM25Retriever._raise_on_failure r)).
Proof.
  cbv zeta. intros Hs Hi Hf.
  destruct r as [ds f fz k ss a p cq rof].
  cbn [OpenSearchBM25Retriever._document_store
       OpenSearchBM25Retriever._filters OpenSearchBM25Retriever._fuzziness
       OpenSearchBM25Retriever._top_k OpenSearchBM25Retriever._scale_score
       OpenSearchBM25Retriever._filter_policy
       OpenSearchBM25Retriever._custom_query
       OpenSearchBM25Retriever._raise_on_failure] in *.
  destruct p; vm_compute in Hs, Hi, Hf |- *; rewrite Hs; vm_compute;
    rewrite Hi, Hf; reflexivity.
Qed.

Lemma embedding_round_trip_of_attributes (r : QdrantEmbeddingRetriever.t) :
  let store := QdrantEmbeddingRetriever._document_store r in
  store_from_dict "QdrantDocumentStore" (store_to_dict store)
    = Returned store ->
  isinstance store "QdrantDocumentStore" = true ->
  QdrantEmbeddingRetriever.to_dict r ≫= QdrantEmbeddingRetriever.from_dict
  = Returned r.
Proof.
  cbv zeta. intros Hs Hi. destruct r as [ds f k ss re p th].
  cbn [QdrantEmbeddingRetriever._document_store] in *.
  destruct p; vm_compute in Hs, Hi |- *; rewrite Hs; vm_compute;
    rewrite Hi; reflexivity.
Qed.

Lemma sparse_round_trip_of_attributes
    (r : QdrantSparseEmbeddingRetriever.t) :
  let store := QdrantSparseEmbeddingRetriever._document_store r in
  store_from_dict "QdrantDocumentStore" (store_to_dict store)
    = Returned store ->
  isinstance store "QdrantDocumentStore" = true ->
  QdrantSparseEmbeddingRetriever.to_dict r
    ≫= QdrantSparseEmbeddingRetriever.from_dict
  = Returned r.
Proof.
  cbv zeta. intros Hs Hi. destruct r as [ds f k ss re p th].
  cbn [QdrantSparseEmbeddingRetriever._document_store] in *.
  destruct p; vm_compute in Hs, Hi |- *; rewrite Hs; vm_compute;
    rewrite Hi; reflexivity.
Qed.

Lemma hybrid_round_trip_of_attributes (r : QdrantHybridRetriever.t) :
  let store := QdrantHybridRetriever._document_store r in
  store_from_dict "QdrantDocumentStore" (store_to_dict store)
    = Returned store ->
  isinstance store "QdrantDocumentStore" = true ->
  QdrantHybridRetriever.to_dict r ≫= QdrantHybridRetriever.from_dict
  = Returned r.
Proof.
  cbv zeta. intros Hs Hi. destruct r as [ds f k re p th].
  cbn [QdrantHybridRetriever._document_store] in *.
  destruct p; vm_compute in Hs, Hi |- *; rewrite Hs; vm_compute;
    rewrite Hi; reflexivity.
Qed.

End RoundTrip.

Section RoundTripOfConstructed.
Context `{DocumentStoreContract}.
Variables document_store filters fuzziness top_k scale_score : PyVal.
Variables all_terms_must_match return_embedding filter_policy : PyVal.
Variables score_threshold custom_query raise_on_failure : PyVal.

(** C5: for [OpenSearchBM25Retriever] the round trip does not give the
    configuration back.  A retriever built by [__init__] over a store that
    survives its own round trip is deserialized from its serialized form
    with every attribute as it was except [_all_terms_must_match], which
    [to_dict] leaves out and which therefore is [False] afterwards, also
    when it was [True] before. *)
Theorem bm25_round_trip_resets_all_terms_must_match
    (r : OpenSearchBM25Retriever.t) :
  OpenSearchBM25Retriever.__init__ document_store filters fuzziness top_k
    scale_score all_terms_must_match filter_policy custom_query
    raise_on_failure = Returned r ->
  store_from_dict "OpenSearchDocumentStore" (store_to_dict document_store)
    = Returned document_store ->
  OpenSearchBM25Retriever.to_dict r ≫= OpenSearchBM25Retriever.from_dict
  = Returned
      (OpenSearchBM25Retriever.mk
         (OpenSearchBM25Retriever._document_store r)
         (OpenSearchBM25Retriever._filters r)
         (OpenSearchBM25Retriever._fuzziness r)
         (OpenSearchBM25Retriever._top_k r)
         (OpenSearchBM25Retriever._scale_score r)
         (VBool false)
         (OpenSearchBM25Retriever._filter_policy r)
         (OpenSearchBM25Retriever._custom_query r)
         (OpenSearchBM25Retriever._raise_on_failure r))
  ∧ OpenSearchBM25Retriever._all_terms_must_match r = all_terms_must_match.
Proof.
  unfold OpenSearchBM25Retriever.__init__. intros Hinit Hs.
  destruct (isinstance document_store _) eqn:Hi; [|discriminate].
  destruct (policy_of_argument filter_policy) as [p|e]; [|discriminate].
  injection Hinit as <-. split; [|reflexivity].
  apply bm25_round_trip_of_attributes.
  - exact Hs.
  - exact Hi.
  - apply py_or_idempotent.
Qed.

(** X1: the three Qdrant variants serialize every parameter of their
    constructor: a retriever built by [__init__] over a store that survives
    its own round trip is deserialized from its serialized form exactly as
    it was. *)
Theorem qdrant_round_trip
    (rd : QdrantEmbeddingRetriever.t) (rs : QdrantSparseEmbeddingRetriever.t)
    (rh : QdrantHybridRetriever.t) :
  store_from_dict "QdrantDocumentStore" (store_to_dict document_store)
    = Returned document_store ->
  QdrantEmbeddingRetriever.__init__ document_store filters top_k scale_score
    return_embedding filter_policy score_threshold = Returned rd ->
  QdrantSparseEmbeddingRetriever.__init__ document_store filters top_k
    scale_score return_embedding filter_policy score_threshold
    = Returned rs ->
  QdrantHybridRetriever.__init__ document_store filters top_k
    return_embedding filter_policy score_threshold = Returned rh ->
  QdrantEmbeddingRetriever.to_dict rd ≫= QdrantEmbeddingRetriever.from_dict
    = Returned rd
  ∧ QdrantSparseEmbeddingRetriever.to_dict rs
      ≫= QdrantSparseEmbeddingRetriever.from_dict = Returned rs
  ∧ QdrantHybridRetriever.to_dict rh ≫= QdrantHybridRetriever.from_dict
    = Returned rh.
Proof.
  unfold QdrantEmbeddingRetriever.__init__,
    QdrantSparseEmbeddingRetriever.__init__, QdrantHybridRetriever.__init__.
  intros Hs Hd Hsp Hh.
  destruct (isinstance document_store _) eqn:Hi; [|discriminate].
  destruct (policy_of_argument filter_policy) as [p|e]; [|discriminate].
  injection Hd as <-. injection Hsp as <-. injection Hh as <-.
  split; [|split].
  - apply embedding_round_trip_of_attributes; assumption.
  - apply sparse_round_trip_of_attributes; assumption.
  - apply hybrid_round_trip_of_attributes; assumption.
Qed.

End RoundTripOfConstructed.

(* ===================================================================== *)
(** ** The properties at the examples of the specification *)
(* ===================================================================== *)

Section OverInMemoryStore.
#[local] Existing Instance in_memory_store.

Lemma scale_score_false_override_example :
  passes_to_store
    (QdrantEmbeddingRetriever.run example_embedding VNone VNone (VBool false)
       VNone VNone)
    (fresh (embedding_example REPLACE) two_documents)
    qdrant_store "_query_by_embedding" "scale_score" (VBool true)
  ∧ passes_to_store
      (QdrantSparseEmbeddingRetriever.run example_sparse_embedding VNone VNone
         (VBool false) VNone VNone)
      (fresh (sparse_example REPLACE) two_documents)
      qdrant_store "_query_by_sparse" "scale_score" (VBool true)
  ∧ passes_to_store
      (OpenSearchBM25Retriever.run example_query VNone VNone VNone VNone
         (VBool false) VNone)
      (fresh (bm25_example REPLACE true) two_documents)
      opensearch_store "_bm25_retrieval" "scale_score" (VBool false).
Proof.
  destruct scale_score_false_override
    with (bm25 := fresh (bm25_example REPLACE true) two_documents)
         (dense := fresh (embedding_example REPLACE) two_documents)
         (sparse := fresh (sparse_example REPLACE) two_documents)
         (query := example_query) (query_embedding := example_embedding)
         (query_sparse_embedding := example_sparse_embedding)
         (filters := VNone) (all_terms_must_match := VNone) (top_k := VNone)
         (fuzziness := VNone) (return_embedding := VNone)
         (score_threshold := VNone) (custom_query := VNone)
    as (Hd & _ & Hs & _ & Hb); [reflexivity | reflexivity |].
  exact (conj Hd (conj Hs Hb)).
Defined.

Lemma top_k_resolution_example :
  (passes_to_store
     (OpenSearchBM25Retriever.run example_query VNone VNone (VInt 5) VNone
        VNone VNone)
     (fresh (bm25_example REPLACE true) two_documents)
     opensearch_store "_bm25_retrieval" "top_k" (VInt 5)
   ∧ passes_to_store
       (QdrantHybridRetriever.run example_embedding example_sparse_embedding
          VNone (VInt 5) VNone VNone)
       (fresh (hybrid_example REPLACE) two_documents)
       qdrant_store "_query_hybrid" "top_k" (VInt 5))
  ∧ (passes_to_store
       (OpenSearchBM25Retriever.run example_query VNone VNone VNone VNone
          VNone VNone)
       (fresh (bm25_example REPLACE true) two_documents)
       opensearch_store "_bm25_retrieval" "top_k" (VInt 10)
     ∧ passes_to_store
         (QdrantHybridRetriever.run example_embedding
            example_sparse_embedding VNone VNone VNone VNone)
         (fresh (hybrid_example REPLACE) two_documents)
         qdrant_store "_query_hybrid" "top_k" (VInt 10)).
Proof.
  destruct top_k_resolution
    with (bm25 := fresh (bm25_example REPLACE true) two_documents)
         (dense := fresh (embedding_example REPLACE) two_documents)
         (sparse := fresh (sparse_example REPLACE) two_documents)
         (hybrid := fresh (hybrid_example REPLACE) two_documents)
         (query := example_query) (query_embedding := example_embedding)
         (query_sparse_embedding := example_sparse_embedding)
         (filters := VNone) (all_terms_must_match := VNone)
         (fuzziness := VNone) (scale_score := VNone)
         (return_embedding := VNone) (score_threshold := VNone)
         (custom_query := VNone)
    as ((Hb5 & _ & _ & Hh5) & (Hb10 & _ & _ & Hh10)); try reflexivity.
  exact (conj (conj Hb5 Hh5) (conj Hb10 Hh10)).
Defined.

Lemma replace_policy_filters_example :
  (passes_to_store
     (OpenSearchBM25Retriever.run example_query (VDict year_2020) VNone VNone
        VNone VNone VNone)
     (fresh (bm25_example REPLACE true) two_documents)
     opensearch_store "_bm25_retrieval" "filters" (VDict year_2020)
   ∧ passes_to_store
       (QdrantEmbeddingRetriever.run example_embedding (VDict year_2020)
          VNone VNone VNone VNone)
       (fresh (embedding_example REPLACE) two_documents)
       qdrant_store "_query_by_embedding" "filters" (VDict year_2020))
  ∧ (passes_to_store
       (OpenSearchBM25Retriever.run example_query VNone VNone VNone VNone
          VNone VNone)
       (fresh (bm25_example REPLACE true) two_documents)
       opensearch_store "_bm25_retrieval" "filters" (VDict lang_en)
     ∧ passes_to_store
         (QdrantEmbeddingRetriever.run example_embedding VNone VNone VNone
            VNone VNone)
         (fresh (embedding_example REPLACE) two_documents)
         qdrant_store "_query_by_embedding" "filters" (VDict lang_en)).
Proof.
  destruct replace_policy_filters
    with (bm25 := fresh (bm25_example REPLACE true) two_documents)
         (dense := fresh (embedding_example REPLACE) two_documents)
         (sparse := fresh (sparse_example REPLACE) two_documents)
         (hybrid := fresh (hybrid_example REPLACE) two_documents)
         (query := example_query) (query_embedding := example_embedding)
         (query_sparse_embedding := example_sparse_embedding)
         (filters := VDict year_2020) (all_terms_must_match := VNone)
         (top_k := VNone) (fuzziness := VNone) (scale_score := VNone)
         (return_embedding := VNone) (score_threshold := VNone)
         (custom_query := VNone)
    as (Hgiven & (Hb & Hd & _)); try reflexivity.
  destruct (Hgiven eq_refl) as (Hb' & Hd' & _).
  exact (conj (conj Hb' Hd') (conj Hb Hd)).
Defined.

Lemma merge_policy_filters_example :
  ∃ effective : gmap string PyVal,
    passes_to_store
      (OpenSearchBM25Retriever.run example_query (VDict year_2020) VNone
         VNone VNone VNone VNone)
      (fresh (bm25_example MERGE true) two_documents)
      opensearch_store "_bm25_retrieval" "filters" (VDict effective)
    ∧ passes_to_store
        (QdrantSparseEmbeddingRetriever.run example_sparse_embedding
           (VDict year_2020) VNone VNone VNone VNone)
        (fresh (sparse_example MERGE) two_documents)
        qdrant_store "_query_by_sparse" "filters" (VDict effective)
    ∧ effective !! "lang" = Some (VStr "en")
    ∧ effective !! "year" = Some (VStr "2020").
Proof.
  destruct merge_policy_filters
    with (bm25 := fresh (bm25_example MERGE true) two_documents)
         (dense := fresh (embedding_example MERGE) two_documents)
         (sparse := fresh (sparse_example MERGE) two_documents)
         (hybrid := fresh (hybrid_example MERGE) two_documents)
         (query := example_query) (query_embedding := example_embedding)
         (query_sparse_embedding := example_sparse_embedding)
         (all_terms_must_match := VNone)
         (top_k := VNone) (fuzziness := VNone) (scale_score := VNone)
         (return_embedding := VNone) (score_threshold := VNone)
         (custom_query := VNone) (init := lang_en) (runtime := year_2020)
    as (effective & (Hb & _ & Hs & _) & Hruntime & Hinit & _);
    try reflexivity.
  exists effective. split; [exact Hb|]. split; [exact Hs|]. split.
  - apply Hinit; reflexivity.
  - apply Hruntime; reflexivity.
Defined.

Lemma wrong_store_type_is_rejected_example :
  OpenSearchBM25Retriever.__init__ qdrant_store VNone (VStr "AUTO") (VInt 10)
    (VBool false) (VBool false) (VPolicy REPLACE) VNone (VBool true)
  = Raised (ValueError
              "document_store must be an instance of OpenSearchDocumentStore")
  ∧ QdrantHybridRetriever.__init__ opensearch_store VNone (VInt 10)
      (VBool false) (VPolicy REPLACE) VNone
    = Raised (ValueError
                "document_store must be an instance of QdrantDocumentStore").
Proof.
  destruct wrong_store_type_is_rejected
    with (not_opensearch := qdrant_store) (not_qdrant := opensearch_store)
         (filters := VNone) (fuzziness := VStr "AUTO") (top_k := VInt 10)
         (scale_score := VBool false) (all_terms_must_match := VBool false)
         (return_embedding := VBool false) (filter_policy := VPolicy REPLACE)
         (score_threshold := VNone) (custom_query := VNone)
         (raise_on_failure := VBool true)
    as (Hb & _ & _ & Hh); try reflexivity.
  exact (conj Hb Hh).
Defined.

Lemma bm25_round_trip_resets_all_terms_must_match_example :
  ∃ r r' : OpenSearchBM25Retriever.t,
    OpenSearchBM25Retriever.__init__ opensearch_store VNone (VStr "AUTO")
      (VInt 10) (VBool false) (VBool true) (VPolicy REPLACE) VNone
      (VBool true) = Returned r
    ∧ OpenSearchBM25Retriever.to_dict r ≫= OpenSearchBM25Retriever.from_dict
      = Returned r'
    ∧ OpenSearchBM25Retriever._all_terms_must_match r = VBool true
    ∧ OpenSearchBM25Retriever._all_terms_must_match r' = VBool false.
Proof.
  eexists. eexists.
  split; [reflexivity|].
  destruct bm25_round_trip_resets_all_terms_must_match
    with (document_store := opensearch_store) (filters := VNone)
         (fuzziness := VStr "AUTO") (top_k := VInt 10)
         (scale_score := VBool false) (all_terms_must_match := VBool true)
         (filter_policy := VPolicy REPLACE) (custom_query := VNone)
         (raise_on_failure := VBool true)
         (r := OpenSearchBM25Retriever.mk opensearch_store (VDict ∅)
                 (VStr "AUTO") (VInt 10) (VBool false) (VBool true) REPLACE
                 VNone (VBool true))
    as (Hrt & Hatmm); [reflexivity | reflexivity |].
  split; [exact Hrt|]. split; reflexivity.
Defined.

End OverInMemoryStore.

Section OverUnreachableStore.
#[local] Existing Instance unreachable_store.

Lemma bm25_store_failure_example :
  (OpenSearchBM25Retriever.run example_query VNone VNone VNone VNone VNone
     VNone (fresh (bm25_example REPLACE false) offline)).1
  = Returned (mkOutput [])
  ∧ log (OpenSearchBM25Retriever.run example_query VNone VNone VNone VNone
           VNone VNone (fresh (bm25_example REPLACE false) offline)).2
    = [bm25_warning connection_refused]
  ∧ (OpenSearchBM25Retriever.run example_query VNone VNone VNone VNone VNone
       VNone (fresh (bm25_example REPLACE true) offline)).1
    = Raised connection_refused.
Proof.
  destruct bm25_store_failure
    with (bm25 := fresh (bm25_example REPLACE false) offline)
         (query := example_query) (filters := VNone)
         (all_terms_must_match := VNone) (top_k := VNone) (fuzziness := VNone)
         (scale_score := VNone) (custom_query := VNone)
         (c := mkStoreCall opensearch_store "_bm25_retrieval"
                 (list_to_map
                    [("query", example_query); ("filters", VDict lang_en);
                     ("fuzziness", VStr "AUTO"); ("top_k", VInt 10);
                     ("scale_score", VBool true);
                     ("all_terms_must_match", VBool true);
                     ("custom_query", VNone)]))
         (e := connection_refused)
    as (_ & _ & Hswallow); [reflexivity | reflexivity |].
  destruct (Hswallow eq_refl) as (Hres & Hlog).
  destruct bm25_store_failure
    with (bm25 := fresh (bm25_example REPLACE true) offline)
         (query := example_query) (filters := VNone)
         (all_terms_must_match := VNone) (top_k := VNone) (fuzziness := VNone)
         (scale_score := VNone) (custom_query := VNone)
         (c := mkStoreCall opensearch_store "_bm25_retrieval"
                 (list_to_map
                    [("query", example_query); ("filters", VDict lang_en);
                     ("fuzziness", VStr "AUTO"); ("top_k", VInt 10);
                     ("scale_score", VBool true);
                     ("all_terms_must_match", VBool true);
                     ("custom_query", VNone)]))
         (e := connection_refused)
    as ((_ & Hraise) & _ & _); [reflexivity | reflexivity |].
  exact (conj Hres (conj Hlog (Hraise eq_refl))).
Defined.

Lemma qdrant_store_failure_propagates_example :
  (QdrantEmbeddingRetriever.run example_embedding VNone VNone VNone VNone
     VNone (fresh (embedding_example REPLACE) offline)).1
  = Raised connection_refused
  ∧ (QdrantSparseEmbeddingRetriever.run example_sparse_embedding VNone VNone
       VNone VNone VNone (fresh (sparse_example REPLACE) offline)).1
    = Raised connection_refused
  ∧ (QdrantHybridRetriever.run example_embedding example_sparse_embedding
       VNone VNone VNone VNone (fresh (hybrid_example REPLACE) offline)).1
    = Raised connection_refused.
Proof.
  destruct qdrant_store_failure_propagates
    with (dense := fresh (embedding_example REPLACE) offline)
         (sparse := fresh (sparse_example REPLACE) offline)
         (hybrid := fresh (hybrid_example REPLACE) offline)
         (query_embedding := example_embedding)
         (query_sparse_embedding := example_sparse_embedding)
         (filters := VNone) (top_k := VNone) (scale_score := VNone)
         (return_embedding := VNone) (score_threshold := VNone)
         (cd := mkStoreCall qdrant_store "_query_by_embedding"
                  (list_to_map
                     [("query_embedding", example_embedding);
                      ("filters", VDict lang_en); ("top_k", VInt 10);
                      ("scale_score", VBool true);
                      ("return_embedding", VBool false);
                      ("score_threshold", VFloat 0.5%float)]))
         (cs := mkStoreCall qdrant_store "_query_by_sparse"
                  (list_to_map
                     [("query_sparse_embedding", example_sparse_embedding);
                      ("filters", VDict lang_en); ("top_k", VInt 10);
                      ("scale_score", VBool true);
                      ("return_embedding", VBool false);
                      ("score_threshold", VFloat 0.5%float)]))
         (ch := mkStoreCall qdrant_store "_query_hybrid"
                  (list_to_map
                     [("query_embedding", example_embedding);
                      ("query_sparse_embedding", example_sparse_embedding);
                      ("filters", VDict lang_en); ("top_k", VInt 10);
                      ("return_embedding", VBool false);
                      ("score_threshold", VFloat 0.5%float)]))
         (ed := connection_refused) (es := connection_refused)
         (eh := connection_refused)
    as ((Hd & _) & (Hs & _) & (Hh & _)); try reflexivity.
  exact (conj Hd (conj Hs Hh)).
Defined.

End OverUnreachableStore.

(** X1: for the three Qdrant variants the round trip holds as stated: here
    for retrievers over the in-memory store, whose serialized form is the
    state of the store object. *)
Lemma qdrant_round_trip_example :
  ∃ (rd : QdrantEmbeddingRetriever.t) (rs : QdrantSparseEmbeddingRetriever.t)
    (rh : QdrantHybridRetriever.t),
    QdrantEmbeddingRetriever.__init__ qdrant_store (VDict lang_en) (VInt 5)
      (VBool true) (VBool true) (VStr "merge") (VFloat 0.5%float)
    = Returned rd
    ∧ QdrantSparseEmbeddingRetriever.__init__ qdrant_store (VDict lang_en)
        (VInt 5) (VBool true) (VBool true) (VStr "merge") (VFloat 0.5%float)
      = Returned rs
    ∧ QdrantHybridRetriever.__init__ qdrant_store (VDict lang_en) (VInt 5)
        (VBool true) (VStr "merge") (VFloat 0.5%float)
      = Returned rh
    ∧ @QdrantEmbeddingRetriever.to_dict in_memory_store rd
        ≫= @QdrantEmbeddingRetriever.from_dict in_memory_store = Returned rd
    ∧ @QdrantSparseEmbeddingRetriever.to_dict in_memory_store rs
        ≫= @QdrantSparseEmbeddingRetriever.from_dict in_memory_store
      = Returned rs
    ∧ @QdrantHybridRetriever.to_dict in_memory_store rh
        ≫= @QdrantHybridRetriever.from_dict in_memory_store = Returned rh.
Proof.
  do 3 eexists.
  split; [reflexivity|]. split; [reflexivity|]. split; [reflexivity|].
  apply (@qdrant_round_trip in_memory_store qdrant_store (VDict lang_en)
           (VInt 5) (VBool true) (VBool true) (VStr "merge")
           (VFloat 0.5%float));
    reflexivity.
Defined.

(* ===================================================================== *)
(** ** Further properties of [run] *)
(* ===================================================================== *)

Ltac keyword_names Hkw :=
  rewrite Hkw; apply set_eq; intros ?; rewrite dom_list_to_map_L; set_solver.

Section CallShape.
Context `{DocumentStoreContract}.
Variable bm25 : State OpenSearchBM25Retriever.t.
Variable dense : State QdrantEmbeddingRetriever.t.
Variable sparse : State QdrantSparseEmbeddingRetriever.t.
Variable hybrid : State QdrantHybridRetriever.t.
Variables query query_embedding query_sparse_embedding : PyVal.
Variables filters all_terms_must_match top_k fuzziness scale_score : PyVal.
Variables return_embedding score_threshold custom_query : PyVal.

(** X2: whatever its arguments and whatever the store answers, a run of any
    variant makes exactly one call: on the store the retriever was built
    with, of the one query method of its class, with exactly the keyword
    arguments of the source (so [raise_on_failure] is never handed on, and
    the hybrid retriever hands on no [scale_score]). *)
Theorem run_calls_store_once :
  (∃ c, makes_call
          (OpenSearchBM25Retriever.run query filters all_terms_must_match
             top_k fuzziness scale_score custom_query) bm25 c
        ∧ call_target c = OpenSearchBM25Retriever._document_store (self bm25)
        ∧ call_method c = "_bm25_retrieval"
        ∧ dom (call_kwargs c)
          = list_to_set ["query"; "filters"; "fuzziness"; "top_k";
                         "scale_score"; "all_terms_must_match";
                         "custom_query"])
  ∧ (∃ c, makes_call
            (QdrantEmbeddingRetriever.run query_embedding filters top_k
               scale_score return_embedding score_threshold) dense c
          ∧ call_target c
            = QdrantEmbeddingRetriever._document_store (self dense)
          ∧ call_method c = "_query_by_embedding"
          ∧ dom (call_kwargs c)
            = list_to_set ["query_embedding"; "filters"; "top_k";
                           "scale_score"; "return_embedding";
                           "score_threshold"])
  ∧ (∃ c, makes_call
            (QdrantSparseEmbeddingRetriever.run query_sparse_embedding
               filters top_k scale_score return_embedding score_threshold)
            sparse c
          ∧ call_target c
            = QdrantSparseEmbeddingRetriever._document_store (self sparse)
          ∧ call_method c = "_query_by_sparse"
          ∧ dom (call_kwargs c)
            = list_to_set ["query_sparse_embedding"; "filters"; "top_k";
                           "scale_score"; "return_embedding";
                           "score_threshold"])
  ∧ (∃ c, makes_call
            (QdrantHybridRetriever.run query_embedding
               query_sparse_embedding filters top_k return_embedding
               score_threshold) hybrid c
          ∧ call_target c
            = QdrantHybridRetriever._document_store (self hybrid)
          ∧ call_method c = "_query_hybrid"
          ∧ dom (call_kwargs c)
            = list_to_set ["query_embedding"; "query_sparse_embedding";
                           "filters"; "top_k"; "return_embedding";
                           "score_threshold"]).
Proof.
  split; [|split; [|split]].
  - destruct (bm25_run_spec query filters all_terms_must_match top_k fuzziness
                scale_score custom_query bm25)
      as (c & Ht & Hm & Hkw & Hc & _).
    exists c. repeat split; try assumption. keyword_names Hkw.
  - destruct (embedding_run_spec query_embedding filters top_k scale_score
                return_embedding score_threshold dense)
      as (c & Ht & Hm & Hkw & Hc & _).
    exists c. repeat split; try assumption. keyword_names Hkw.
  - destruct (sparse_run_spec query_sparse_embedding filters top_k scale_score
                return_embedding score_threshold sparse)
      as (c & Ht & Hm & Hkw & Hc & _).
    exists c. repeat split; try assumption. keyword_names Hkw.
  - destruct (hybrid_run_spec query_embedding query_sparse_embedding filters
                top_k return_embedding score_threshold hybrid)
      as (c & Ht & Hm & Hkw & Hc & _).
    exists c. repeat split; try assumption. keyword_names Hkw.
Qed.

(** X3: when the store answers the call with a list of documents, the run
    of any variant returns [{"documents": docs}] with that very list, in
    the store's order and with nothing added or dropped, and logs nothing. *)
Theorem run_returns_store_documents
    (cb cd cs ch : StoreCall) (docs_b docs_d docs_s docs_h : list Document) :
  let mb := OpenSearchBM25Retriever.run query filters all_terms_must_match
              top_k fuzziness scale_score custom_query in
  let md := QdrantEmbeddingRetriever.run query_embedding filters top_k
              scale_score return_embedding score_threshold in
  let ms := QdrantSparseEmbeddingRetriever.run query_sparse_embedding filters
              top_k scale_score return_embedding score_threshold in
  let mh := QdrantHybridRetriever.run query_embedding query_sparse_embedding
              filters top_k return_embedding score_threshold in
  makes_call mb bm25 cb -> answer bm25 cb = Returned docs_b ->
  makes_call md dense cd -> answer dense cd = Returned docs_d ->
  makes_call ms sparse cs -> answer sparse cs = Returned docs_s ->
  makes_call mh hybrid ch -> answer hybrid ch = Returned docs_h ->
  ((mb bm25).1 = Returned (mkOutput docs_b) ∧ log (mb bm25).2 = log bm25)
  ∧ ((md dense).1 = Returned (mkOutput docs_d)
     ∧ log (md dense).2 = log dense)
  ∧ ((ms sparse).1 = Returned (mkOutput docs_s)
     ∧ log (ms sparse).2 = log sparse)
  ∧ ((mh hybrid).1 = Returned (mkOutput docs_h)
     ∧ log (mh hybrid).2 = log hybrid).
Proof.
  cbv zeta. intros Hcb Hab Hcd Had Hcs Has Hch Hah.
  destruct (bm25_run_spec query filters all_terms_must_match top_k fuzziness
              scale_score custom_query bm25)
    as (c0 & _ & _ & _ & Hc0 & Hr0 & Hl0).
  destruct (embedding_run_spec query_embedding filters top_k scale_score
              return_embedding score_threshold dense)
    as (c1 & _ & _ & _ & Hc1 & Hr1 & Hl1).
  destruct (sparse_run_spec query_sparse_embedding filters top_k scale_score
              return_embedding score_threshold sparse)
    as (c2 & _ & _ & _ & Hc2 & Hr2 & Hl2).
  destruct (hybrid_run_spec query_embedding query_sparse_embedding filters
              top_k return_embedding score_threshold hybrid)
    as (c3 & _ & _ & _ & Hc3 & Hr3 & Hl3).
  cbv zeta in *.
  rewrite (makes_call_inj _ _ _ _ Hc0 Hcb), Hab in Hr0, Hl0.
  rewrite (makes_call_inj _ _ _ _ Hc1 Hcd), Had in Hr1.
  rewrite (makes_call_inj _ _ _ _ Hc2 Hcs), Has in Hr2.
  rewrite (makes_call_inj _ _ _ _ Hc3 Hch), Hah in Hr3.
  repeat split; assumption.
Qed.




End CallShape.

(** *** The configured filters of the BM25 retriever *)

Lemma py_or_dict_is_not_None (x : PyVal) (d : gmap string PyVal) :
  is_None (py_or x (VDict d)) = false.
Proof.
  unfold py_or. destruct (truthy x) eqn:Hx; [|reflexivity].
  destruct x; try reflexivity. discriminate.
Qed.

Section BM25Filters.
Context `{DocumentStoreContract}.
Variable bm25 : State OpenSearchBM25Retriever.t.
Variables document_store configured_filters configured_fuzziness : PyVal.
Variables configured_top_k configured_scale_score : PyVal.
Variables configured_all_terms_must_match filter_policy : PyVal.
Variables configured_custom_query raise_on_failure : PyVal.
Variables query filters all_terms_must_match top_k fuzziness scale_score : PyVal.
Variable custom_query : PyVal.

(** X7: a BM25 retriever built by [__init__] never hands [filters=None] to
    the store, whatever filters it was configured and called with: the
    constructor stores [filters or {}], and [run] falls back to that value
    when the filter policy yields [None]. *)
Theorem bm25_filters_are_never_None :
  OpenSearchBM25Retriever.__init__ document_store configured_filters
    configured_fuzziness configured_top_k configured_scale_score
    configured_all_terms_must_match filter_policy configured_custom_query
    raise_on_failure = Returned (self bm25) ->
  ∃ effective : PyVal,
    forwards
      (OpenSearchBM25Retriever.run query filters all_terms_must_match top_k
         fuzziness scale_score custom_query) bm25 "filters" effective
    ∧ is_None effective = false.
Proof.
  unfold OpenSearchBM25Retriever.__init__. intros Hinit.
  destruct (isinstance document_store _); [|discriminate].
  destruct (policy_of_argument filter_policy) as [p|e]; [|discriminate].
  injection Hinit as Hself.
  eexists. split.
  - forwards_by (bm25_run_spec query filters all_terms_must_match top_k
                   fuzziness scale_score custom_query bm25).
    reflexivity.
  - rewrite <- Hself.
    cbn [OpenSearchBM25Retriever._filters
         OpenSearchBM25Retriever._filter_policy].
    unfold unless_None at 1.
    destruct (is_None (apply_filter_policy _ _ _)) eqn:Hp.
    + apply py_or_dict_is_not_None.
    + exact Hp.
Qed.

End BM25Filters.

(** *** Deserialization *)

Lemma bind_Returned_inv {A B} (m : Outcome A) (f : A -> Outcome B) (b : B) :
  m ≫= f = Returned b -> ∃ a, m = Returned a ∧ f a = Returned b.
Proof. destruct m as [a|e]; [|discriminate]. intros Hf. exists a. auto. Qed.

Lemma getitem_missing (d : gmap string PyVal) (key : string) :
  d !! key = None -> getitem (VDict d) key = Raised (KeyError key).
Proof. intros Hd. unfold getitem. rewrite Hd. reflexivity. Qed.

Lemma getitem_present (d : gmap string PyVal) (key : string) (v : PyVal) :
  d !! key = Some v -> getitem (VDict d) key = Returned v.
Proof. intros Hd. unfold getitem. rewrite Hd. reflexivity. Qed.

Ltac outcome_steps := cbn [mbind Outcome_bind setitem].

Ltac from_dict_inv H :=
  repeat (apply bind_Returned_inv in H as (? & _ & H));
  match type of H with
  | match ?x with _ => _ end = _ => destruct x; try discriminate
  end.

Ltac construct_inv H :=
  match type of H with
  | context [unexpected_keyword ?ps ?kw] =>
      destruct (unexpected_keyword ps kw); [discriminate|]
  end;
  apply bind_Returned_inv in H as (? & _ & H);
  match type of H with
  | context [isinstance ?s ?c] =>
      let Hi := fresh "Hi" in
      destruct (isinstance s c) eqn:Hi; [|discriminate];
      apply bind_Returned_inv in H as (? & _ & H);
      injection H as <-; exact Hi
  end.

Section Deserialization.
Context `{DocumentStoreContract}.
Variables data init_parameters : gmap string PyVal.
Variables serialized document_store : PyVal.

(** X8: [from_dict] of every variant indexes ["init_parameters"], then
    ["document_store"], then ["filter_policy"], each without a default: a
    mapping that lacks one of them raises [KeyError] with that key.  So
    serialized data without a filter policy are refused (once the store is
    deserialized), although the constructor has a default for it. *)
Theorem from_dict_requires_keys :
  let os := store_from_dict "OpenSearchDocumentStore" serialized in
  let qd := store_from_dict "QdrantDocumentStore" serialized in
  (data !! "init_parameters" = None ->
   OpenSearchBM25Retriever.from_dict data
     = Raised (KeyError "init_parameters")
   ∧ QdrantEmbeddingRetriever.from_dict data
     = Raised (KeyError "init_parameters")
   ∧ QdrantSparseEmbeddingRetriever.from_dict data
     = Raised (KeyError "init_parameters")
   ∧ QdrantHybridRetriever.from_dict data
     = Raised (KeyError "init_parameters"))
  ∧
  (data !! "init_parameters" = Some (VDict init_parameters) ->
   init_parameters !! "document_store" = None ->
   OpenSearchBM25Retriever.from_dict data
     = Raised (KeyError "document_store")
   ∧ QdrantEmbeddingRetriever.from_dict data
     = Raised (KeyError "document_store")
   ∧ QdrantSparseEmbeddingRetriever.from_dict data
     = Raised (KeyError "document_store")
   ∧ QdrantHybridRetriever.from_dict data
     = Raised (KeyError "document_store"))
  ∧
  (data !! "init_parameters" = Some (VDict init_parameters) ->
   init_parameters !! "document_store" = Some serialized ->
   init_parameters !! "filter_policy" = None ->
   (os = Returned document_store ->
    OpenSearchBM25Retriever.from_dict data
      = Raised (KeyError "filter_policy"))
   ∧ (qd = Returned document_store ->
      QdrantEmbeddingRetriever.from_dict data
        = Raised (KeyError "filter_policy")
      ∧ QdrantSparseEmbeddingRetriever.from_dict data
        = Raised (KeyError "filter_policy")
      ∧ QdrantHybridRetriever.from_dict data
        = Raised (KeyError "filter_policy"))).
Proof.
  cbv zeta.
  unfold OpenSearchBM25Retriever.from_dict, QdrantEmbeddingRetriever.from_dict,
    QdrantSparseEmbeddingRetriever.from_dict, QdrantHybridRetriever.from_dict.
  split; [|split].
  - intros Hip. rewrite (getitem_missing _ _ Hip). repeat split.
  - intros Hip Hds. rewrite (getitem_present _ _ _ Hip). outcome_steps.
    rewrite (getitem_missing _ _ Hds). repeat split.
  - intros Hip Hds Hfp. rewrite (getitem_present _ _ _ Hip). outcome_steps.
    rewrite (getitem_present _ _ _ Hds). outcome_steps.
    assert (Hfp' : (<["document_store" := document_store]> init_parameters)
                     !! "filter_policy" = None)
      by (rewrite lookup_insert_ne by discriminate; exact Hfp).
    split; intros ->; outcome_steps; rewrite (getitem_missing _ _ Hfp');
      repeat split.
Qed.

(** X9: when the store class fails to deserialize the serialized store,
    [from_dict] of every variant raises that same exception. *)
Theorem from_dict_propagates_store_failure (e : Exception) :
  data !! "init_parameters" = Some (VDict init_parameters) ->
  init_parameters !! "document_store" = Some serialized ->
  (store_from_dict "OpenSearchDocumentStore" serialized = Raised e ->
   OpenSearchBM25Retriever.from_dict data = Raised e)
  ∧ (store_from_dict "QdrantDocumentStore" serialized = Raised e ->
     QdrantEmbeddingRetriever.from_dict data = Raised e
     ∧ QdrantSparseEmbeddingRetriever.from_dict data = Raised e
     ∧ QdrantHybridRetriever.from_dict data = Raised e).
Proof.
  intros Hip Hds.
  unfold OpenSearchBM25Retriever.from_dict, QdrantEmbeddingRetriever.from_dict,
    QdrantSparseEmbeddingRetriever.from_dict, QdrantHybridRetriever.from_dict.
  rewrite (getitem_present _ _ _ Hip). outcome_steps.
  rewrite (getitem_present _ _ _ Hds). outcome_steps.
  split; intros ->; repeat split.
Qed.

(** X10: whatever [from_dict] returns holds a document store of the class
    the variant expects: the deserialized store goes through the check of
    the constructor again, so a store class whose [from_dict] yields an
    object of another class cannot get a retriever built around it. *)
Theorem from_dict_checks_store_type
    (rb : OpenSearchBM25Retriever.t) (rd : QdrantEmbeddingRetriever.t)
    (rs : QdrantSparseEmbeddingRetriever.t) (rh : QdrantHybridRetriever.t) :
  (OpenSearchBM25Retriever.from_dict data = Returned rb ->
   isinstance (OpenSearchBM25Retriever._document_store rb)
     "OpenSearchDocumentStore" = true)
  ∧ (QdrantEmbeddingRetriever.from_dict data = Returned rd ->
     isinstance (QdrantEmbeddingRetriever._document_store rd)
       "QdrantDocumentStore" = true)
  ∧ (QdrantSparseEmbeddingRetriever.from_dict data = Returned rs ->
     isinstance (QdrantSparseEmbeddingRetriever._document_store rs)
       "QdrantDocumentStore" = true)
  ∧ (QdrantHybridRetriever.from_dict data = Returned rh ->
     isinstance (QdrantHybridRetriever._document_store rh)
       "QdrantDocumentStore" = true).
Proof.
  split; [|split; [|split]]; intros Hfrom.
  - unfold OpenSearchBM25Retriever.from_dict in Hfrom. from_dict_inv Hfrom.
    unfold OpenSearchBM25Retriever.construct,
      OpenSearchBM25Retriever.__init__ in Hfrom.
    construct_inv Hfrom.
  - unfold QdrantEmbeddingRetriever.from_dict in Hfrom. from_dict_inv Hfrom.
    unfold QdrantEmbeddingRetriever.construct,
      QdrantEmbeddingRetriever.__init__ in Hfrom.
    construct_inv Hfrom.
  - unfold QdrantSparseEmbeddingRetriever.from_dict in Hfrom.
    from_dict_inv Hfrom.
    unfold QdrantSparseEmbeddingRetriever.construct,
      QdrantSparseEmbeddingRetriever.__init__ in Hfrom.
    construct_inv Hfrom.
  - unfold QdrantHybridRetriever.from_dict in Hfrom. from_dict_inv Hfrom.
    unfold QdrantHybridRetriever.construct,
      QdrantHybridRetriever.__init__ in Hfrom.
    construct_inv Hfrom.
Qed.

End Deserialization.

Section RoundTripAgain.
Context `{DocumentStoreContract}.
Variables document_store filters fuzziness top_k scale_score : PyVal.
Variables all_terms_must_match return_embedding filter_policy : PyVal.
Variables score_threshold custom_query raise_on_failure : PyVal.

(** X11: a BM25 retriever built with [all_terms_must_match=False], the
    default, over a store that survives its own round trip is deserialized
    from its serialized form exactly as it was. *)
Theorem bm25_round_trip_with_default_all_terms_must_match
    (r : OpenSearchBM25Retriever.t) :
  OpenSearchBM25Retriever.__init__ document_store filters fuzziness top_k
    scale_score (VBool false) filter_policy custom_query raise_on_failure
    = Returned r ->
  store_from_dict "OpenSearchDocumentStore" (store_to_dict document_store)
    = Returned document_store ->
  OpenSearchBM25Retriever.to_dict r ≫= OpenSearchBM25Retriever.from_dict
  = Returned r.
Proof.
  unfold OpenSearchBM25Retriever.__init__. intros Hinit Hs.
  destruct (isinstance document_store _) eqn:Hi; [|discriminate].
  destruct (policy_of_argument filter_policy) as [p|e]; [|discriminate].
  injection Hinit as <-.
  apply (bm25_round_trip_of_attributes
           (OpenSearchBM25Retriever.mk document_store
              (py_or filters (VDict ∅)) fuzziness top_k scale_score
              (VBool false) p custom_query raise_on_failure)).
  - exact Hs.
  - exact Hi.
  - apply py_or_idempotent.
Qed.

(** X12: every constructor takes the filter policy as the member or as its
    string value: both give the same retriever (or the same error). *)
Theorem filter_policy_token_is_the_member (p : FilterPolicy) :
  OpenSearchBM25Retriever.__init__ document_store filters fuzziness top_k
    scale_score all_terms_must_match (VStr (FilterPolicy_value p))
    custom_query raise_on_failure
  = OpenSearchBM25Retriever.__init__ document_store filters fuzziness top_k
      scale_score all_terms_must_match (VPolicy p) custom_query
      raise_on_failure
  ∧ QdrantEmbeddingRetriever.__init__ document_store filters top_k
      scale_score return_embedding (VStr (FilterPolicy_value p))
      score_threshold
    = QdrantEmbeddingRetriever.__init__ document_store filters top_k
        scale_score return_embedding (VPolicy p) score_threshold
  ∧ QdrantSparseEmbeddingRetriever.__init__ document_store filters top_k
      scale_score return_embedding (VStr (FilterPolicy_value p))
      score_threshold
    = QdrantSparseEmbeddingRetriever.__init__ document_store filters top_k
        scale_score return_embedding (VPolicy p) score_threshold
  ∧ QdrantHybridRetriever.__init__ document_store filters top_k
      return_embedding (VStr (FilterPolicy_value p)) score_threshold
    = QdrantHybridRetriever.__init__ document_store filters top_k
        return_embedding (VPolicy p) score_threshold.
Proof. destruct p; repeat split. Qed.

End RoundTripAgain.

Section SerializedForm.
Context `{DocumentStoreContract}.
Variable rb : OpenSearchBM25Retriever.t.
Variable rd : QdrantEmbeddingRetriever.t.
Variable rs : QdrantSparseEmbeddingRetriever.t.
Variable rh : QdrantHybridRetriever.t.


End SerializedForm.

Lemma StoreCall_eq (c c' : StoreCall) :
  call_target c = call_target c' -> call_method c = call_method c' ->
  call_kwargs c = call_kwargs c' -> c = c'.
Proof.
  destruct c as [t m k], c' as [t' m' k'].
  cbn [call_target call_method call_kwargs].
  intros -> -> ->. reflexivity.
Qed.

Ltac same_call c1 c2 :=
  match goal with
  | Ht1 : call_target c1 = _, Hm1 : call_method c1 = _,
    Hk1 : call_kwargs c1 = _, Hc1 : makes_call _ _ c1,
    Ht2 : call_target c2 = _, Hm2 : call_method c2 = _,
    Hk2 : call_kwargs c2 = _, Hc2 : makes_call _ _ c2 |- _ =>
      assert (c2 = c1) as ->
        by (apply StoreCall_eq;
            [rewrite Ht2, Ht1 | rewrite Hm2, Hm1 | rewrite Hk2, Hk1];
            reflexivity);
      exists c1; unfold makes_call in Hc1, Hc2;
      rewrite Hc2, Hc1, <- app_assoc; reflexivity
  end.

Section RepeatedRun.
Context `{DocumentStoreContract}.
Variable bm25 : State OpenSearchBM25Retriever.t.
Variable dense : State QdrantEmbeddingRetriever.t.
Variable sparse : State QdrantSparseEmbeddingRetriever.t.
Variable hybrid : State QdrantHybridRetriever.t.
Variables query query_embedding query_sparse_embedding : PyVal.
Variables filters all_terms_must_match top_k fuzziness scale_score : PyVal.
Variables return_embedding score_threshold custom_query : PyVal.

(** X14: runs do not influence one another through the retriever: a second
    run with the same arguments, whether the first returned or raised,
    makes the very same call (same store, method and keyword arguments) as
    the first. *)
Theorem repeated_run_repeats_the_call :
  let mb := OpenSearchBM25Retriever.run query filters all_terms_must_match
              top_k fuzziness scale_score custom_query in
  let md := QdrantEmbeddingRetriever.run query_embedding filters top_k
              scale_score return_embedding score_threshold in
  let ms := QdrantSparseEmbeddingRetriever.run query_sparse_embedding filters
              top_k scale_score return_embedding score_threshold in
  let mh := QdrantHybridRetriever.run query_embedding query_sparse_embedding
              filters top_k return_embedding score_threshold in
  (∃ c, calls (mb (mb bm25).2).2 = (calls bm25 ++ [c; c])%list)
  ∧ (∃ c, calls (md (md dense).2).2 = (calls dense ++ [c; c])%list)
  ∧ (∃ c, calls (ms (ms sparse).2).2 = (calls sparse ++ [c; c])%list)
  ∧ (∃ c, calls (mh (mh hybrid).2).2 = (calls hybrid ++ [c; c])%list).
Proof.
  cbv zeta. split; [|split; [|split]].
  - destruct (bm25_run_spec query filters all_terms_must_match top_k fuzziness
                scale_score custom_query bm25)
      as (c1 & Ht1 & Hm1 & Hk1 & Hc1 & _).
    destruct (bm25_run_spec query filters all_terms_must_match top_k fuzziness
                scale_score custom_query
                (OpenSearchBM25Retriever.run query filters
                   all_terms_must_match top_k fuzziness scale_score
                   custom_query bm25).2)
      as (c2 & Ht2 & Hm2 & Hk2 & Hc2 & _).
    rewrite (bm25_run_preserves_self query filters all_terms_must_match top_k
               fuzziness scale_score custom_query bm25) in Ht2, Hk2.
    same_call c1 c2.
  - destruct (embedding_run_spec query_embedding filters top_k scale_score
                return_embedding score_threshold dense)
      as (c1 & Ht1 & Hm1 & Hk1 & Hc1 & _).
    destruct (embedding_run_spec query_embedding filters top_k scale_score
                return_embedding score_threshold
                (QdrantEmbeddingRetriever.run query_embedding filters top_k
                   scale_score return_embedding score_threshold dense).2)
      as (c2 & Ht2 & Hm2 & Hk2 & Hc2 & _).
    rewrite (embedding_run_preserves_self query_embedding filters top_k
               scale_score return_embedding score_threshold dense)
      in Ht2, Hk2.
    same_call c1 c2.
  - destruct (sparse_run_spec query_sparse_embedding filters top_k scale_score
                return_embedding score_threshold sparse)
      as (c1 & Ht1 & Hm1 & Hk1 & Hc1 & _).
    destruct (sparse_run_spec query_sparse_embedding filters top_k scale_score
                return_embedding score_threshold
                (QdrantSparseEmbeddingRetriever.run query_sparse_embedding
                   filters top_k scale_score return_embedding score_threshold
                   sparse).2)
      as (c2 & Ht2 & Hm2 & Hk2 & Hc2 & _).
    rewrite (sparse_run_preserves_self query_sparse_embedding filters top_k
               scale_score return_embedding score_threshold sparse)
      in Ht2, Hk2.
    same_call c1 c2.
  - destruct (hybrid_run_spec query_embedding query_sparse_embedding filters
                top_k return_embedding score_threshold hybrid)
      as (c1 & Ht1 & Hm1 & Hk1 & Hc1 & _).
    destruct (hybrid_run_spec query_embedding query_sparse_embedding filters
                top_k return_embedding score_threshold
                (QdrantHybridRetriever.run query_embedding
                   query_sparse_embedding filters top_k return_embedding
                   score_threshold hybrid).2)
      as (c2 & Ht2 & Hm2 & Hk2 & Hc2 & _).
    rewrite (hybrid_run_preserves_self query_embedding
               query_sparse_embedding filters top_k return_embedding
               score_threshold hybrid) in Ht2, Hk2.
    same_call c1 c2.
Qed.

End RepeatedRun.

Section FurtherExamplesInMemory.
#[local] Existing Instance in_memory_store.

Lemma run_returns_store_documents_example :
  (OpenSearchBM25Retriever.run example_query VNone VNone VNone VNone VNone
     VNone (fresh (bm25_example REPLACE true) two_documents)).1
  = Returned (mkOutput [doc_a; doc_b])
  ∧ (QdrantHybridRetriever.run example_embedding example_sparse_embedding
       VNone VNone VNone VNone
       (fresh (hybrid_example REPLACE) two_documents)).1
    = Returned (mkOutput [doc_a; doc_b]).
Proof.
  edestruct run_returns_store_documents
    with (bm25 := fresh (bm25_example REPLACE true) two_documents)
         (dense := fresh (embedding_example REPLACE) two_documents)
         (sparse := fresh (sparse_example REPLACE) two_documents)
         (hybrid := fresh (hybrid_example REPLACE) two_documents)
         (query := example_query) (query_embedding := example_embedding)
         (query_sparse_embedding := example_sparse_embedding)
         (filters := VNone) (all_terms_must_match := VNone) (top_k := VNone)
         (fuzziness := VNone) (scale_score := VNone)
         (return_embedding := VNone) (score_threshold := VNone)
         (custom_query := VNone)
    as ((Hb & _) & _ & _ & (Hh & _)).
  1-8: exact eq_refl.
  exact (conj Hb Hh).
Defined.




Lemma bm25_filters_are_never_None_example :
  ∃ effective : PyVal,
    forwards
      (OpenSearchBM25Retriever.run example_query VNone VNone VNone VNone
         VNone VNone)
      (fresh (OpenSearchBM25Retriever.mk opensearch_store (VDict ∅)
                (VStr "AUTO") (VInt 10) (VBool false) (VBool false) REPLACE
                VNone (VBool true)) empty_index)
      "filters" effective
    ∧ is_None effective = false.
Proof.
  apply bm25_filters_are_never_None
    with (document_store := opensearch_store) (configured_filters := VNone)
         (configured_fuzziness := VStr "AUTO") (configured_top_k := VInt 10)
         (configured_scale_score := VBool false)
         (configured_all_terms_must_match := VBool false)
         (filter_policy := VPolicy REPLACE) (configured_custom_query := VNone)
         (raise_on_failure := VBool true).
  reflexivity.
Defined.

Lemma from_dict_requires_keys_example :
  OpenSearchBM25Retriever.from_dict serialized_without_policy
  = Raised (KeyError "filter_policy")
  ∧ QdrantHybridRetriever.from_dict serialized_without_policy
    = Raised (KeyError "filter_policy")
  ∧ QdrantEmbeddingRetriever.from_dict ∅
    = Raised (KeyError "init_parameters").
Proof.
  destruct from_dict_requires_keys
    with (data := serialized_without_policy)
         (init_parameters :=
            ({[ "document_store" := serialized_store; "top_k" := VInt 3 ]}
             : gmap string PyVal))
         (serialized := serialized_store)
         (document_store := VObj ["OpenSearchDocumentStore"] serialized_store)
    as (_ & _ & Hpolicy).
  destruct Hpolicy as (Hb & _); try reflexivity.
  destruct from_dict_requires_keys
    with (data := serialized_without_policy)
         (init_parameters :=
            ({[ "document_store" := serialized_store; "top_k" := VInt 3 ]}
             : gmap string PyVal))
         (serialized := serialized_store)
         (document_store := VObj ["QdrantDocumentStore"] serialized_store)
    as (_ & _ & Hpolicy).
  destruct Hpolicy as (_ & Hq); try reflexivity.
  destruct from_dict_requires_keys
    with (data := (∅ : gmap string PyVal))
         (init_parameters := (∅ : gmap string PyVal))
         (serialized := VNone) (document_store := VNone)
    as (Hmissing & _).
  destruct (Hmissing eq_refl) as (_ & Hd & _).
  destruct (Hq eq_refl) as (_ & _ & Hh).
  exact (conj (Hb eq_refl) (conj Hh Hd)).
Defined.

Lemma from_dict_checks_store_type_example :
  ∃ (rb : OpenSearchBM25Retriever.t) (rh : QdrantHybridRetriever.t),
    OpenSearchBM25Retriever.from_dict serialized_retriever = Returned rb
    ∧ QdrantHybridRetriever.from_dict serialized_retriever = Returned rh
    ∧ isinstance (OpenSearchBM25Retriever._document_store rb)
        "OpenSearchDocumentStore" = true
    ∧ isinstance (QdrantHybridRetriever._document_store rh)
        "QdrantDocumentStore" = true.
Proof.
  do 2 eexists.
  split; [vm_compute; reflexivity|]. split; [vm_compute; reflexivity|].
  edestruct from_dict_checks_store_type
    with (data := serialized_retriever) (rd := embedding_example MERGE)
         (rs := sparse_example MERGE)
    as (Hb & _ & _ & Hh).
  split; [apply Hb | apply Hh]; vm_compute; reflexivity.
Defined.

Lemma bm25_round_trip_with_default_all_terms_must_match_example :
  ∃ r : OpenSearchBM25Retriever.t,
    OpenSearchBM25Retriever.__init__ opensearch_store (VDict lang_en)
      (VStr "AUTO") (VInt 10) (VBool true) (VBool false) (VStr "merge")
      VNone (VBool false) = Returned r
    ∧ OpenSearchBM25Retriever.to_dict r ≫= OpenSearchBM25Retriever.from_dict
      = Returned r.
Proof.
  eexists. split; [reflexivity|].
  apply bm25_round_trip_with_default_all_terms_must_match
    with (document_store := opensearch_store) (filters := VDict lang_en)
         (fuzziness := VStr "AUTO") (top_k := VInt 10)
         (scale_score := VBool true) (filter_policy := VStr "merge")
         (custom_query := VNone) (raise_on_failure := VBool false);
    reflexivity.
Defined.

End FurtherExamplesInMemory.

Section FurtherExamplesValidating.
#[local] Existing Instance validating_store.

Lemma from_dict_propagates_store_failure_example :
  OpenSearchBM25Retriever.from_dict serialized_with_broken_store
  = Raised invalid_store_data
  ∧ QdrantSparseEmbeddingRetriever.from_dict serialized_with_broken_store
    = Raised invalid_store_data.
Proof.
  destruct from_dict_propagates_store_failure
    with (data := serialized_with_broken_store)
         (init_parameters :=
            ({[ "document_store" := VNone; "filter_policy" := VStr "merge" ]}
             : gmap string PyVal))
         (serialized := VNone) (e := invalid_store_data)
    as (Hb & Hq); try reflexivity.
  destruct (Hq eq_refl) as (_ & Hs & _).
  exact (conj (Hb eq_refl) Hs).
Defined.

End FurtherExamplesValidating.
